(** * HuggingFaceScraper: a shallow embedding of [hugging_face_scraping.py]

    The development follows the source file top to bottom: the Python
    builtins the scraper calls, the library collaborators it consumes
    (HTTP transport, the HTML parser, URL handling), the methods of the
    class [HuggingFaceScraper], and then the properties of the extraction
    and aggregation pipeline.

    Conventions.
    - A Python [str] is a Rocq [string]; every character stands for the code
      point of the same number (code points below 256).
    - A Python [dict] is a [gmap]; the value [None] is [None] of [option].
    - A method that reads the network or may raise lives in the monad [M]:
      it receives the list of URLs requested so far and returns either a
      value or a raised exception, with the extended list.
    - The [cache] dictionary the methods mutate is passed in and handed
      back, as the source passes one dictionary to every call. *)

From Stdlib Require Import ZArith Ascii String List Lia DecimalString.
From stdpp Require Import base tactics option list gmap strings.

Local Open Scope string_scope.
Local Open Scope list_scope.
Local Open Scope Z_scope.

(** ** Python string builtins *)

Module Py.

(** [str.isspace] for one character, on code points below 256:
    TAB..CR, FS..US, SPACE, NEL and NBSP. *)
Definition isspace (c : ascii) : bool :=
  let n := N_of_ascii c in
  ((9 <=? n) && (n <=? 13) || (28 <=? n) && (n <=? 32)
   || (n =? 133) || (n =? 160))%N.

(** [s.count(c)] for a one-character [c]. *)
Fixpoint count (c : ascii) (s : string) : nat :=
  match s with
  | EmptyString => O
  | String a s' => if Ascii.eqb a c then S (count c s') else count c s'
  end.

(** [s.split(c)] for a one-character separator [c]. *)
Fixpoint split (c : ascii) (s : string) : list string :=
  match s with
  | EmptyString => [EmptyString]
  | String a s' =>
      if Ascii.eqb a c then EmptyString :: split c s'
      else match split c s' with
           | [] => [String a EmptyString]
           | w :: ws => String a w :: ws
           end
  end.

(** [s.startswith(p)] is [String.prefix]; [sub in s] is substring search. *)
Definition startswith (s p : string) : bool := String.prefix p s.

Fixpoint contains (sub s : string) : bool :=
  String.prefix sub s ||
  match s with
  | EmptyString => false
  | String _ s' => contains sub s'
  end.

(** [sep.join(l)]. *)
Fixpoint join (sep : string) (l : list string) : string :=
  match l with
  | [] => EmptyString
  | [x] => x
  | x :: l' => x +:+ sep +:+ join sep l'
  end.

Fixpoint drop (n : nat) (s : string) : string :=
  match n, s with
  | O, _ => s
  | S n', EmptyString => EmptyString
  | S n', String _ s' => drop n' s'
  end.

(** [s.replace(old, new)]: left to right, matches do not overlap.  [skip]
    counts the characters of a match that remain to be passed over.  An
    empty [old] is not handled (the source never passes one). *)
Fixpoint replace_from (skip : nat) (old new s : string) : string :=
  match s with
  | EmptyString => EmptyString
  | String a s' =>
      match skip with
      | S k => replace_from k old new s'
      | O =>
          if String.prefix old s
          then new +:+ replace_from (Nat.pred (String.length old)) old new s'
          else String a (replace_from O old new s')
      end
  end.

Definition replace (old new s : string) : string := replace_from O old new s.

(** [s.lstrip()], [s.rstrip()] and [s.strip()]. *)
Fixpoint lstrip (s : string) : string :=
  match s with
  | EmptyString => EmptyString
  | String a s' => if isspace a then lstrip s' else s
  end.

Fixpoint rstrip (s : string) : string :=
  match s with
  | EmptyString => EmptyString
  | String a s' =>
      match rstrip s' with
      | EmptyString => if isspace a then EmptyString else String a EmptyString
      | r => String a r
      end
  end.

Definition strip (s : string) : string := rstrip (lstrip s).

(** [s.splitlines()]: the line boundaries below code point 256 are LF, VT,
    FF, CR, FS, GS, RS and NEL; CR LF counts once. *)
Definition is_linebreak (c : ascii) : bool :=
  let n := N_of_ascii c in
  ((10 <=? n) && (n <=? 13) || (28 <=? n) && (n <=? 30) || (n =? 133))%N.

Definition is_CR (c : ascii) : bool := (N_of_ascii c =? 13)%N.
Definition is_LF (c : ascii) : bool := (N_of_ascii c =? 10)%N.

Fixpoint splitlines (s : string) : list string :=
  match s with
  | EmptyString => []
  | String a s' =>
      if is_linebreak a then
        EmptyString ::
          match s' with
          | String b s'' =>
              if is_CR a && is_LF b then splitlines s'' else splitlines s'
          | EmptyString => []
          end
      else match splitlines s' with
           | [] => [String a EmptyString]
           | w :: ws => String a w :: ws
           end
  end.

(** [int(s)] in base 10: surrounding whitespace, one optional sign, digits,
    single underscores between digits.  [None] stands for [ValueError]. *)
Definition digit_of (c : ascii) : option Z :=
  let n := N_of_ascii c in
  if ((48 <=? n) && (n <=? 57))%N then Some (Z.of_N n - 48) else None.

Fixpoint int_digits (acc : Z) (after_digit : bool) (s : string) : option Z :=
  match s with
  | EmptyString => if after_digit then Some acc else None
  | String c s' =>
      if Ascii.eqb c "_" then
        if after_digit then int_digits acc false s' else None
      else match digit_of c with
           | Some d => int_digits (10 * acc + d) true s'
           | None => None
           end
  end.

Definition int (s : string) : option Z :=
  match strip s with
  | String c r =>
      if Ascii.eqb c "-" then Z.opp <$> int_digits 0 false r
      else if Ascii.eqb c "+" then int_digits 0 false r
      else int_digits 0 false (String c r)
  | EmptyString => None
  end.

(** [str(n)], as the f-string of the page URL renders an integer. *)
Definition str (n : Z) : string := NilZero.string_of_int (Z.to_int n).

(** [range(start, stop)] and [range(start, stop, step)]; a zero [step] is
    a [ValueError], here [None]. *)
Definition range (start stop : Z) : list Z := seqZ start (stop - start).

Definition range_step (start stop step : Z) : option (list Z) :=
  if step =? 0 then None
  else
    let n := if 0 <? step then (stop - start + step - 1) `div` step
             else (start - stop - step - 1) `div` (- step) in
    Some ((fun i => start + i * step) <$> seqZ 0 n).

End Py.

(** ** Exceptions and the effect monad *)

Inductive exn := IndexError | KeyError | TypeError | ValueError.

Inductive res (A : Type) :=
  | Ok (a : A)
  | Raise (e : exn).
Arguments Ok {A} a.
Arguments Raise {A} e.

(** The state is the history of the transport: the URLs requested so far,
    oldest first. *)
Definition M (A : Type) : Type := list string -> res A * list string.

Definition ret {A} (a : A) : M A := fun log => (Ok a, log).

Definition raise {A} (e : exn) : M A := fun log => (Raise e, log).

Definition bind {A B} (m : M A) (k : A -> M B) : M B :=
  fun log =>
    match m log with
    | (Ok a, log') => k a log'
    | (Raise e, log') => (Raise e, log')
    end.

Definition lift {A} (r : res A) : M A := fun log => (r, log).

(** [try: m  except Exception as e: h e]. *)
Definition try_except {A} (m : M A) (h : exn -> M A) : M A :=
  fun log =>
    match m log with
    | (Ok a, log') => (Ok a, log')
    | (Raise e, log') => h e log'
    end.

Declare Scope py_scope.
Delimit Scope py_scope with py.
Notation "'let*' x := m 'in' k" := (bind m (fun x => k))
  (at level 10, x pattern, m at level 100, k at level 200) : py_scope.
Local Open Scope py_scope.

(** [for x in l: s = body x s], with the loop-carried variables in [s]. *)
Fixpoint for_ {A S} (l : list A) (body : A -> S -> M S) (s : S) : M S :=
  match l with
  | [] => ret s
  | x :: l' => let* s' := body x s in for_ l' body s'
  end.

(** A list comprehension whose element expression may raise. *)
Fixpoint comprehension {A B} (f : A -> res B) (l : list A) : res (list B) :=
  match l with
  | [] => Ok []
  | x :: l' =>
      match f x with
      | Raise e => Raise e
      | Ok y =>
          match comprehension f l' with
          | Raise e => Raise e
          | Ok ys => Ok (y :: ys)
          end
      end
  end.

(** [l[i]], negative indices counting from the end. *)
Definition getitem {A} (l : list A) (i : Z) : res A :=
  let j := if i <? 0 then Z.of_nat (length l) + i else i in
  if j <? 0 then Raise IndexError
  else match l !! Z.to_nat j with
       | Some x => Ok x
       | None => Raise IndexError
       end.

(** [d[k]] on a dictionary. *)
Definition getkey {V} (d : gmap string V) (k : string) : res V :=
  match d !! k with
  | Some v => Ok v
  | None => Raise KeyError
  end.

(** ** The parsed document

    What [BeautifulSoup(text, 'html.parser')] returns: a forest of elements
    and text nodes.  An element carries its name, its attribute dictionary
    (one string per attribute; [class] holds the attribute as written) and
    its contents in document order. *)

#[local] Set Warnings "-register-all".

Inductive Node :=
  | NavigableString (s : string)
  | Element (name : string) (attrs : list (string * string)) (contents : list Node).

Definition Soup := list Node.

Module Bs4.

(** [tag.get(key)]; [key in tag.attrs] is [is_Some] of it. *)
Definition get (key : string) (n : Node) : option string :=
  match n with
  | NavigableString _ => None
  | Element _ attrs _ =>
      snd <$> List.find (fun kv => String.eqb (fst kv) key) attrs
  end.

(** [tag[key]]. *)
Definition getattr (n : Node) (key : string) : res string :=
  match get key n with
  | Some v => Ok v
  | None => Raise KeyError
  end.

Definition is_tag (name : string) (n : Node) : bool :=
  match n with
  | NavigableString _ => false
  | Element nm _ _ => String.eqb nm name
  end.

(** The whitespace-separated tokens of a multi-valued attribute. *)
Fixpoint tokens (s : string) : list string :=
  match s with
  | EmptyString => []
  | String a s' =>
      if Py.isspace a then tokens s'
      else match s' with
           | EmptyString => [String a EmptyString]
           | String b _ =>
               if Py.isspace b then String a EmptyString :: tokens s'
               else match tokens s' with
                    | [] => [String a EmptyString]
                    | w :: ws => String a w :: ws
                    end
           end
  end.

(** The [class_=cls] filter: some token equals [cls], or the tokens joined
    by single spaces do. *)
Definition has_class (cls : string) (n : Node) : bool :=
  match get "class" n with
  | None => false
  | Some v =>
      let ts := tokens v in
      existsb (String.eqb cls) ts || String.eqb (Py.join " " ts) cls
  end.

(** All nodes below [n], in document order. *)
Fixpoint descendants (n : Node) : list Node :=
  match n with
  | NavigableString _ => []
  | Element _ _ cs => flat_map (fun c => c :: descendants c) cs
  end.

Definition all_nodes (soup : Soup) : list Node :=
  flat_map (fun c => c :: descendants c) soup.

(** [soup.find_all(...)] with the filter [p]; [tag.find(...)] is the first
    match below the tag. *)
Definition find_all (p : Node -> bool) (soup : Soup) : list Node :=
  List.filter p (all_nodes soup).

Definition find (p : Node -> bool) (n : Node) : option Node :=
  List.find p (descendants n).

Definition soup_find (p : Node -> bool) (soup : Soup) : option Node :=
  List.find p (all_nodes soup).

(** The text nodes below [n], and [tag.get_text(separator=sep)]. *)
Fixpoint strings (n : Node) : list string :=
  match n with
  | NavigableString s => [s]
  | Element _ _ cs => flat_map strings cs
  end.

Definition get_text (sep : string) (n : Node) : string :=
  Py.join sep (strings n).

(** [tag.find(...)] followed by [.extract()] when something is found: the
    first node below [n] that satisfies [p] is removed from the tree. *)
Fixpoint extract_first (p : Node -> bool) (n : Node) : option Node :=
  match n with
  | NavigableString _ => None
  | Element nm attrs cs =>
      Element nm attrs <$>
        (fix go (l : list Node) : option (list Node) :=
           match l with
           | [] => None
           | c :: l' =>
               if p c then Some l'
               else match extract_first p c with
                    | Some c' => Some (c' :: l')
                    | None => cons c <$> go l'
                    end
           end) cs
  end.

Definition extract_if_found (p : Node -> bool) (n : Node) : Node :=
  default n (extract_first p n).

End Bs4.

(** ** The install-command pattern

    [re.findall(r'pip install git\+(https://github\.com/[^\s]+)', text)]:
    the literal fragment followed by at least one character that is not
    whitespace; the group is the GitHub URL up to the next whitespace, and
    the search resumes after the match. *)

Module Re.

Definition pip_prefix : string := "pip install git+".
Definition github_prefix : string := "https://github.com/".

Fixpoint nonspace_run (s : string) : string :=
  match s with
  | EmptyString => EmptyString
  | String a s' => if Py.isspace a then EmptyString else String a (nonspace_run s')
  end.

Fixpoint findall_from (skip : nat) (s : string) : list string :=
  match s with
  | EmptyString => []
  | String _ s' =>
      match skip with
      | S k => findall_from k s'
      | O =>
          if String.prefix (pip_prefix +:+ github_prefix) s then
            let run :=
              nonspace_run
                (Py.drop (String.length (pip_prefix +:+ github_prefix)) s) in
            match run with
            | EmptyString => findall_from O s'
            | _ =>
                (github_prefix +:+ run)
                  :: findall_from
                       (Nat.pred (String.length (pip_prefix +:+ github_prefix)
                                  + String.length run)) s'
            end
          else findall_from O s'
      end
  end.

Definition findall_pip_install (text : string) : list string :=
  findall_from O text.

End Re.

(** ** Collaborators

    The libraries the scraper consumes and does not define.
    - [requests_get log url]: the text of a successful GET of [url] issued
      after the requests [log], or [None] when [requests.get] or
      [raise_for_status] raises.
    - [BeautifulSoup]: the HTML parser.
    - [urlparse], [parse_qs], [urljoin]: [urllib.parse]; the first two may
      raise on the link they are given.
    - [set_iter]: the order in which a [set] of strings built by the given
      insertions is iterated; it lists every inserted string once. *)

Record ParseResult := {
  scheme : string; netloc : string; path : string;
  params : string; query : string; fragment : string
}.

Class Collaborators := {
  requests_get : list string -> string -> option string;
  BeautifulSoup : string -> Soup;
  urlparse : string -> res ParseResult;
  parse_qs : string -> res (gmap string (list string));
  urljoin : string -> string -> string;
  set_iter : list string -> list string;
  set_iter_NoDup : forall l, NoDup (set_iter l);
  set_iter_elem : forall l x, x ∈ set_iter l <-> x ∈ l
}.

(** ** The methods of [HuggingFaceScraper] *)

Abbreviation Cache := (gmap string (option string)).

Definition origin : string := "https://huggingface.co".

Section Scraper.
Context `{C : Collaborators}.

(** [fetch_html_content]: the request is issued and recorded; a raised
    exception is logged and turned into [None]. *)
Definition fetch_html_content (url : string) : M (option string) :=
  fun log => (Ok (requests_get log url), log ++ [url]).

Definition get_or_cache_html (url : string) (cache : Cache)
  : M (option string * Cache) :=
  match cache !! url with
  | Some html_content => ret (html_content, cache)
  | None =>
      let* html_content := fetch_html_content url in
      ret (html_content, <[url := html_content]> cache)
  end.

(** The nested loops of the planner: the batches starting at [starts], each
    running to [batch_end]. *)
Definition page_urls (base_url : string) (max_page batch_size : Z)
    (starts : list Z) : list string :=
  flat_map
    (fun batch_start =>
       let batch_end := Z.min (batch_start + batch_size) (max_page + 1) in
       (fun page_number =>
          urljoin base_url ("?p=" +:+ Py.str page_number +:+ "&sort=trending"))
         <$> Py.range batch_start batch_end)
    starts.

Definition generate_model_page_urls_with_pagination
    (base_url : string) (batch_size : Z) : M (list string) :=
  try_except
    (let* (base_html_content, _) := get_or_cache_html base_url ∅ in
     match base_html_content with
     | None => ret []
     | Some text =>
         let soup := BeautifulSoup text in
         let li_elements :=
           Bs4.find_all
             (fun n => Bs4.is_tag "li" n && Bs4.has_class "hidden sm:block" n)
             soup in
         let* li := lift (getitem li_elements (-1)) in
         let* a :=
           lift (match Bs4.find (Bs4.is_tag "a") li with
                 | Some a => Ok a
                 | None => Raise TypeError
                 end) in
         let* last_href := lift (Bs4.getattr a "href") in
         let* parsed_url := lift (urlparse last_href) in
         let* query_params := lift (parse_qs (query parsed_url)) in
         let* max_page :=
           lift (match query_params !! "p" with
                 | None => Ok 0
                 | Some values =>
                     match getitem values 0 with
                     | Raise e => Raise e
                     | Ok v =>
                         match Py.int v with
                         | Some n => Ok n
                         | None => Raise ValueError
                         end
                     end
                 end) in
         let* starts :=
           lift (match Py.range_step 0 (max_page + 1) batch_size with
                 | Some l => Ok l
                 | None => Raise ValueError
                 end) in
         let href_values := page_urls base_url max_page batch_size starts in
         ret (take 3 href_values)
     end)
    (fun _ => ret []).

(** The four listing passes.  The list comprehension inside the loop rebinds
    the name [href_values]; the loop keeps iterating over the argument. *)
Definition scrape_model_names (href_values : list string) (cache : Cache)
  : M (list string * Cache) :=
  for_ href_values
    (fun url '(model_names, cache) =>
       let* (response_text, cache) := get_or_cache_html url cache in
       match response_text with
       | None => ret (model_names, cache)
       | Some text =>
           let soup := BeautifulSoup text in
           let elements := Bs4.find_all (Bs4.has_class "block p-2") soup in
           let hrefs := omap (Bs4.get "href") elements in
           let* names :=
             lift (comprehension
                     (fun href =>
                        if (2 <=? Py.count "/" href)%nat
                        then getitem (Py.split "/" href) (-1)
                        else Ok " ")
                     hrefs) in
           ret (model_names ++ names, cache)
       end)
    ([], cache).

Definition scrape_model_repositories (href_values : list string) (cache : Cache)
  : M (list string * Cache) :=
  for_ href_values
    (fun url '(model_repo, cache) =>
       let* (response_text, cache) := get_or_cache_html url cache in
       match response_text with
       | None => ret (model_repo, cache)
       | Some text =>
           let soup := BeautifulSoup text in
           let elements := Bs4.find_all (Bs4.has_class "block p-2") soup in
           let hrefs := omap (Bs4.get "href") elements in
           let* repos :=
             lift (comprehension
                     (fun href => getitem (Py.split "/" href) 1) hrefs) in
           ret (model_repo ++ repos, cache)
       end)
    ([], cache).

Definition model_addresses (href_values : list string) (cache : Cache)
  : M (list string * Cache) :=
  for_ href_values
    (fun url '(model_address, cache) =>
       let* (response_text, cache) := get_or_cache_html url cache in
       match response_text with
       | None => ret (model_address, cache)
       | Some text =>
           let soup := BeautifulSoup text in
           let elements := Bs4.find_all (Bs4.has_class "block p-2") soup in
           ret (model_address ++ omap (Bs4.get "href") elements, cache)
       end)
    ([], cache).

Definition fetch_huggingface_model_urls (href_values : list string) (cache : Cache)
  : M (list string * Cache) :=
  for_ href_values
    (fun url '(model_url, cache) =>
       let* (response_text, cache) := get_or_cache_html url cache in
       match response_text with
       | None => ret (model_url, cache)
       | Some text =>
           let soup := BeautifulSoup text in
           let elements := Bs4.find_all (Bs4.has_class "block p-2") soup in
           ret (model_url
                  ++ ((fun href => origin +:+ href)
                        <$> omap (Bs4.get "href") elements),
                cache)
       end)
    ([], cache).

(** [scrape_github_links].  The set [unique_github_links] is kept as the
    sequence of its insertions; [set_iter] gives the order of the join. *)
Definition scrape_github_links (model_urls : list string) (cache : Cache)
  : M (list string * Cache) :=
  for_ model_urls
    (fun url '(results, cache) =>
       let unique_github_links : list string := [] in
       let* (response_text, cache) := get_or_cache_html url cache in
       match response_text with
       | None => ret (results, cache)
       | Some text =>
           let pip_links := Re.findall_pip_install text in
           let unique_github_links := unique_github_links ++ pip_links in
           let soup := BeautifulSoup text in
           let links :=
             Bs4.find_all
               (fun n => Bs4.is_tag "a" n && bool_decide (is_Some (Bs4.get "href" n)))
               soup in
           let* hrefs :=
             lift (comprehension (fun link => Bs4.getattr link "href") links) in
           let unique_github_links :=
             unique_github_links
               ++ List.filter
                    (fun href =>
                       Py.startswith href "https://github.com/"
                       || Py.startswith href "http://github.com/")
                    hrefs in
           let output := Py.join ", " (set_iter unique_github_links) in
           ret (results ++ [output], cache)
       end)
    ([], cache).

(** [scrape_model_cards]. *)
Definition header_class : string :=
  "from-gray-50-to-white border-b border-gray-100 bg-gradient-to-t via-white dark:via-gray-950 pt-6 sm:pt-9".
Definition sidebar_class : string :=
  "pt-8 border-gray-100 md:col-span-5 pt-6 md:pb-24 md:pl-6 md:border-l order-first md:order-none".
Definition button_class : string :=
  "btn mb-6 text-sm text-gray-600 md:absolute md:-right-6 md:top-0 md:mb-0 md:rounded-r-none md:rounded-t-none md:border-r-0 md:border-t-0 md:border-gray-100 md:bg-none".

Definition scrape_model_cards (model_urls : list string) (cache : Cache)
  : M (list string * Cache) :=
  for_ model_urls
    (fun url '(all_texts, cache) =>
       let* (response_text, cache) := get_or_cache_html url cache in
       match response_text with
       | None => ret (all_texts, cache)
       | Some text =>
           let soup := BeautifulSoup text in
           match Bs4.soup_find
                   (fun n => Bs4.is_tag "main" n
                             && Bs4.has_class "flex flex-1 flex-col" n) soup with
           | None => ret (all_texts, cache)
           | Some main_element =>
               let main_element :=
                 Bs4.extract_if_found
                   (fun n => Bs4.is_tag "header" n && Bs4.has_class header_class n)
                   main_element in
               let main_element :=
                 Bs4.extract_if_found
                   (fun n => Bs4.is_tag "div" n && Bs4.has_class sidebar_class n)
                   main_element in
               let main_element :=
                 Bs4.extract_if_found
                   (fun n => Bs4.is_tag "section" n && Bs4.has_class sidebar_class n)
                   main_element in
               let main_element :=
                 Bs4.extract_if_found
                   (fun n => Bs4.is_tag "a" n && Bs4.has_class button_class n)
                   main_element in
               let extracted_text := Bs4.get_text " " main_element in
               let lines :=
                 Py.strip
                   <$> List.filter
                         (fun line => negb (String.eqb (Py.strip line) ""))
                         (Py.splitlines extracted_text) in
               let cleaned_text := Py.join " " lines in
               ret (all_texts ++ [cleaned_text], cache)
           end
       end)
    ([], cache).

(** [scrape_category_tags]. *)
Definition empty_category_items : gmap string (list string) :=
  {[ "Task" := []; "Library" := []; "Language" := []; "Others" := [];
     "Arxiv" := []; "License" := []; "Dataset" := [] ]}.

(** The [if]/[elif] chain on the href; [None] is the [continue] branch. *)
Definition heading_of (href : string) : option string :=
  if Py.startswith href "/models?pipeline_tag=" then Some "Task"
  else if Py.startswith href "/models?library=" then Some "Library"
  else if Py.startswith href "/models?language=" then Some "Language"
  else if Py.startswith href "/models?other=" then
    if Py.contains "=arxiv%" href then Some "Arxiv" else Some "Others"
  else if Py.startswith href "/models?license=license%3A" then Some "License"
  else if Py.startswith href "/models?dataset=dataset%3A" then Some "Dataset"
  else None.

Definition newline : string := String (ascii_of_nat 10) EmptyString.

Definition tag_text_of (heading : string) (a_tag : Node) : string :=
  let tag_text := Py.strip (Bs4.get_text "" a_tag) in
  let tag_text := Py.replace newline "" tag_text in
  if String.eqb heading "License"
  then Py.replace "License: " "" tag_text
  else tag_text.

Definition categorize (a_tags : list Node) : M (gmap string (list string)) :=
  for_ a_tags
    (fun a_tag category_items =>
       let href := default "" (Bs4.get "href" a_tag) in
       match heading_of href with
       | None => ret category_items
       | Some heading =>
           let tag_text := tag_text_of heading a_tag in
           let* items := lift (getkey category_items heading) in
           ret (<[heading := items ++ [tag_text]]> category_items)
       end)
    empty_category_items.

Definition scrape_category_tags (model_urls : list string) (cache : Cache)
  : M (list (gmap string (list string)) * Cache) :=
  for_ model_urls
    (fun url '(all_category_items, cache) =>
       let* (response_text, cache) := get_or_cache_html url cache in
       match response_text with
       | None => ret (all_category_items, cache)
       | Some text =>
           let soup := BeautifulSoup text in
           let a_tags := Bs4.find_all (Bs4.is_tag "a") soup in
           let* category_items := categorize a_tags in
           ret (all_category_items ++ [category_items], cache)
       end)
    ([], cache).

(** ** Aggregation

    One row of the table, the fields in the order of the tuple that [zip]
    yields (and of the header row of [save_to_csv]). *)
Record Row := mkRow {
  index : Z; name : string; repo : string; address : string; url : string;
  Task : string; Library : string; Dataset : string; Language : string;
  Others : string; Arxiv : string; License : string;
  githubLinks : string; description : string
}.

(** The cells of a row, left to right, and the header row that
    [save_to_csv] writes above them. *)
Definition columns (r : Row) : list string :=
  [Py.str (index r); name r; repo r; address r; url r; Task r; Library r;
   Dataset r; Language r; Others r; Arxiv r; License r; githubLinks r;
   description r].

Definition header : list string :=
  ["Sr.no"; "ModelName"; "ModelRepo"; "ModelAddress"; "ModelUrl"; "Tasks";
   "Libraries"; "Dataset"; "Languages"; "Other"; "Arxiv"; "Licenses";
   "Github Links"; "Body"].

(** The fourteen-argument [zip]: it stops at the first exhausted argument. *)
Fixpoint zip_rows (l0 : list Z)
    (l1 l2 l3 l4 l5 l6 l7 l8 l9 l10 l11 l12 l13 : list string) : list Row :=
  match l0, l1, l2, l3, l4, l5, l6, l7, l8, l9, l10, l11, l12, l13 with
  | x0 :: t0, x1 :: t1, x2 :: t2, x3 :: t3, x4 :: t4, x5 :: t5, x6 :: t6,
    x7 :: t7, x8 :: t8, x9 :: t9, x10 :: t10, x11 :: t11, x12 :: t12,
    x13 :: t13 =>
      mkRow x0 x1 x2 x3 x4 x5 x6 x7 x8 x9 x10 x11 x12 x13
        :: zip_rows t0 t1 t2 t3 t4 t5 t6 t7 t8 t9 t10 t11 t12 t13
  | _, _, _, _, _, _, _, _, _, _, _, _, _, _ => []
  end.

(** The row-building line of [run]. *)
Definition make_rows (model_names model_repo model_addresses model_urls
    task_data library_data dataset_data language_data others_data arxiv_data
    license_data scrape_github_links extract_model_cards : list string)
  : list Row :=
  zip_rows (Py.range 1 (Z.of_nat (length model_names) + 1))
    model_names model_repo model_addresses model_urls
    task_data library_data dataset_data language_data others_data arxiv_data
    license_data scrape_github_links extract_model_cards.

(** [[', '.join(x[key]) for x in scrape_category_tags]]. *)
Definition tag_column (key : string) (tags : list (gmap string (list string)))
  : res (list string) :=
  comprehension
    (fun x => match getkey x key with
              | Ok items => Ok (Py.join ", " items)
              | Raise e => Raise e
              end)
    tags.

(** [run]: [None] when the base page cannot be fetched, otherwise the rows
    handed to [save_to_csv]. *)
Definition run : M (option (list Row)) :=
  let base_url := "https://huggingface.co/models" in
  let cache : Cache := ∅ in
  let* (base_html_content, cache) := get_or_cache_html base_url cache in
  match base_html_content with
  | None => ret None
  | Some _ =>
      let* href_values := generate_model_page_urls_with_pagination base_url 50 in
      let* (model_names, cache) := scrape_model_names href_values cache in
      let* (model_repo, cache) := scrape_model_repositories href_values cache in
      let* (model_addresses, cache) := model_addresses href_values cache in
      let* (model_urls, cache) := fetch_huggingface_model_urls href_values cache in
      let* (extract_model_cards, cache) := scrape_model_cards model_urls cache in
      let* (scrape_github_links, cache) := scrape_github_links model_urls cache in
      let* (scrape_category_tags, cache) := scrape_category_tags model_urls cache in
      let* task_data := lift (tag_column "Task" scrape_category_tags) in
      let* library_data := lift (tag_column "Library" scrape_category_tags) in
      let* dataset_data := lift (tag_column "Dataset" scrape_category_tags) in
      let* arxiv_data := lift (tag_column "Arxiv" scrape_category_tags) in
      let* language_data := lift (tag_column "Language" scrape_category_tags) in
      let* others_data := lift (tag_column "Others" scrape_category_tags) in
      let* license_data := lift (tag_column "License" scrape_category_tags) in
      let rows :=
        make_rows model_names model_repo model_addresses model_urls
          task_data library_data dataset_data language_data others_data
          arxiv_data license_data scrape_github_links extract_model_cards in
      ret (Some rows)
  end.

End Scraper.

(** ** What one lookup through the cache does

    [get_or_cache_html] never raises; [lookup_or_fetch] is its outcome as a
    plain function of the cache and the request history. *)

Section Semantics.
Context `{C : Collaborators}.

Definition lookup_or_fetch (url : string) (cache : Cache) (log : list string)
  : option string * Cache * list string :=
  match cache !! url with
  | Some v => (v, cache, log)
  | None =>
      (requests_get log url, <[url := requests_get log url]> cache, log ++ [url])
  end.

(** The outcome of a loop whose body looks a URL up, skips it when the
    markup is absent, and otherwise extends its accumulator by [g text]. *)
Fixpoint pass_sem {X} (g : string -> res (list X)) (urls : list string)
    (acc : list X) (cache : Cache) (log : list string)
  : res (list X * Cache) * list string :=
  match urls with
  | [] => (Ok (acc, cache), log)
  | u :: us =>
      let '(rt, c', l') := lookup_or_fetch u cache log in
      match rt with
      | None => pass_sem g us acc c' l'
      | Some text =>
          match g text with
          | Ok xs => pass_sem g us (acc ++ xs) c' l'
          | Raise e => (Raise e, l')
          end
      end
  end.

(** The markup of the URLs that a loop over [urls] gets to see, with the
    cache and the history it leaves. *)
Fixpoint visit (urls : list string) (cache : Cache) (log : list string)
  : list string * Cache * list string :=
  match urls with
  | [] => ([], cache, log)
  | u :: us =>
      let '(rt, c', l') := lookup_or_fetch u cache log in
      let '(ts, c'', l'') := visit us c' l' in
      (match rt with Some text => text :: ts | None => ts end, c'', l'')
  end.

(** The hrefs of the model-link blocks of a listing page. *)
Definition block_hrefs (text : string) : list string :=
  omap (Bs4.get "href")
    (Bs4.find_all (Bs4.has_class "block p-2") (BeautifulSoup text)).

(** The anchors of a detail page that carry an href. *)
Definition href_anchors (text : string) : list Node :=
  Bs4.find_all
    (fun n => Bs4.is_tag "a" n && bool_decide (is_Some (Bs4.get "href" n)))
    (BeautifulSoup text).

(** The members of the set of links of a detail page, as inserted. *)
Definition github_insertions (text : string) : list string :=
  Re.findall_pip_install text
    ++ List.filter
         (fun href =>
            Py.startswith href "https://github.com/"
            || Py.startswith href "http://github.com/")
         (omap (Bs4.get "href") (href_anchors text)).

(** The markup a cache holds for a URL ([None] also when it holds none). *)
Definition cached (cache : Cache) (u : string) : option string :=
  default None (cache !! u).

(** A loop body that has the shape all seven passes share. *)
Definition pass_body {X} (g : string -> res (list X))
    (body : string -> list X * Cache -> M (list X * Cache)) : Prop :=
  forall url acc cache log,
    body url (acc, cache) log =
      let '(rt, c', l') := lookup_or_fetch url cache log in
      match rt with
      | None => (Ok (acc, c'), l')
      | Some text =>
          match g text with
          | Ok xs => (Ok (acc ++ xs, c'), l')
          | Raise e => (Raise e, l')
          end
      end.

(** What each pass adds for one page. *)
Definition names_of (text : string) : res (list string) :=
  comprehension
    (fun href =>
       if (2 <=? Py.count "/" href)%nat
       then getitem (Py.split "/" href) (-1)
       else Ok " ")
    (block_hrefs text).

Definition repos_of (text : string) : res (list string) :=
  comprehension (fun href => getitem (Py.split "/" href) 1) (block_hrefs text).

Definition links_of (text : string) : res (list string) :=
  comprehension (fun link => Bs4.getattr link "href") (href_anchors text).

Definition github_of (text : string) : res (list string) :=
  match links_of text with
  | Raise e => Raise e
  | Ok hrefs =>
      Ok [Py.join ", "
            (set_iter
               (Re.findall_pip_install text
                  ++ List.filter
                       (fun href =>
                          Py.startswith href "https://github.com/"
                          || Py.startswith href "http://github.com/")
                       hrefs))]
  end.

(** The planner's reading of the base page: the pagination-control items
    and the page number of the last item's link. *)
Definition pagination_items (text : string) : list Node :=
  Bs4.find_all
    (fun n => Bs4.is_tag "li" n && Bs4.has_class "hidden sm:block" n)
    (BeautifulSoup text).

Definition max_page_of (text : string) : res Z :=
  match getitem (pagination_items text) (-1) with
  | Raise e => Raise e
  | Ok li =>
      match Bs4.find (Bs4.is_tag "a") li with
      | None => Raise TypeError
      | Some a =>
          match Bs4.getattr a "href" with
          | Raise e => Raise e
          | Ok last_href =>
              match urlparse last_href with
              | Raise e => Raise e
              | Ok parsed_url =>
                  match parse_qs (query parsed_url) with
                  | Raise e => Raise e
                  | Ok query_params =>
                      match query_params !! "p" with
                      | None => Ok 0
                      | Some values =>
                          match getitem values 0 with
                          | Raise e => Raise e
                          | Ok v =>
                              match Py.int v with
                              | Some n => Ok n
                              | None => Raise ValueError
                              end
                          end
                      end
                  end
              end
          end
      end
  end.

(** The URL of listing page [n]. *)
Definition page_url (base_url : string) (n : Z) : string :=
  urljoin base_url ("?p=" +:+ Py.str n +:+ "&sort=trending").

(** The ways the planner fails on the base page: the fetch fails, there is
    no pagination-control item, the last item has no link or the link no
    href, the link or its query cannot be parsed, or the page number of the
    link is not an integer. *)
Inductive planner_failure (base_url : string) (log : list string) : Prop :=
  | fetch_fails :
      requests_get log base_url = None -> planner_failure base_url log
  | no_pagination_items text :
      requests_get log base_url = Some text ->
      pagination_items text = [] -> planner_failure base_url log
  | no_link text li :
      requests_get log base_url = Some text ->
      last (pagination_items text) = Some li ->
      Bs4.find (Bs4.is_tag "a") li = None -> planner_failure base_url log
  | no_href text li a :
      requests_get log base_url = Some text ->
      last (pagination_items text) = Some li ->
      Bs4.find (Bs4.is_tag "a") li = Some a ->
      Bs4.get "href" a = None -> planner_failure base_url log
  | link_not_parsed text li a href e :
      requests_get log base_url = Some text ->
      last (pagination_items text) = Some li ->
      Bs4.find (Bs4.is_tag "a") li = Some a ->
      Bs4.get "href" a = Some href ->
      urlparse href = Raise e -> planner_failure base_url log
  | query_not_parsed text li a href parsed_url e :
      requests_get log base_url = Some text ->
      last (pagination_items text) = Some li ->
      Bs4.find (Bs4.is_tag "a") li = Some a ->
      Bs4.get "href" a = Some href ->
      urlparse href = Ok parsed_url ->
      parse_qs (query parsed_url) = Raise e -> planner_failure base_url log
  | page_not_integer text li a href parsed_url query_params v values :
      requests_get log base_url = Some text ->
      last (pagination_items text) = Some li ->
      Bs4.find (Bs4.is_tag "a") li = Some a ->
      Bs4.get "href" a = Some href ->
      urlparse href = Ok parsed_url ->
      parse_qs (query parsed_url) = Ok query_params ->
      query_params !! "p" = Some (v :: values) ->
      Py.int v = None -> planner_failure base_url log.

(** The card of a detail page: the text of its main region without the
    header, the sidebar and the button, one line, or nothing when the page
    has no main region. *)
Definition clean_card (main_element : Node) : string :=
  let main_element :=
    Bs4.extract_if_found
      (fun n => Bs4.is_tag "header" n && Bs4.has_class header_class n)
      main_element in
  let main_element :=
    Bs4.extract_if_found
      (fun n => Bs4.is_tag "div" n && Bs4.has_class sidebar_class n)
      main_element in
  let main_element :=
    Bs4.extract_if_found
      (fun n => Bs4.is_tag "section" n && Bs4.has_class sidebar_class n)
      main_element in
  let main_element :=
    Bs4.extract_if_found
      (fun n => Bs4.is_tag "a" n && Bs4.has_class button_class n)
      main_element in
  Py.join " "
    (Py.strip
       <$> List.filter (fun line => negb (String.eqb (Py.strip line) ""))
             (Py.splitlines (Bs4.get_text " " main_element))).

Definition card_of (text : string) : option string :=
  clean_card
    <$> Bs4.soup_find
          (fun n => Bs4.is_tag "main" n && Bs4.has_class "flex flex-1 flex-col" n)
          (BeautifulSoup text).

(** The anchors of a detail page, and the mapping built from them. *)
Definition anchors (text : string) : list Node :=
  Bs4.find_all (Bs4.is_tag "a") (BeautifulSoup text).

Definition tags_of (text : string) : res (list (gmap string (list string))) :=
  match (categorize (anchors text) []).1 with
  | Ok category_items => Ok [category_items]
  | Raise e => Raise e
  end.

(** The anchors among [a_tags] that fall into category [k]. *)
Definition in_category (k : string) (a_tags : list Node) : list Node :=
  List.filter
    (fun a => bool_decide (heading_of (default "" (Bs4.get "href" a)) = Some k))
    a_tags.

(** The raw links that a pass over the listing pages [urls] meets, in the
    order of the pages and, within a page, of the document. *)
Definition listing_links (urls : list string) (cache : Cache) (log : list string)
  : list string :=
  mjoin (block_hrefs <$> (visit urls cache log).1.1).

End Semantics.

(** The entry of the name pass and of the repository pass for one link. *)
Definition name_of (href : string) : string :=
  if (2 <=? Py.count "/" href)%nat
  then default " " (last (Py.split "/" href))
  else " ".

Definition owner_of (href : string) : string :=
  default "" (Py.split "/" href !! 1%nat).

Section RunRows.
Context `{C : Collaborators}.

(** The cells of a row that come from the detail page [text], and the rows
    of a run that met the links [links] on its listing pages and the markup
    [details] on the detail pages it could fetch. *)
Definition tag_cell (k : string) (text : string) : string :=
  Py.join ", " (tag_text_of k <$> in_category k (anchors text)).

Definition github_cell (text : string) : string :=
  Py.join ", " (set_iter (github_insertions text)).

Definition run_rows (links details : list string) : list Row :=
  make_rows (name_of <$> links) (owner_of <$> links) links
    ((fun href => origin +:+ href) <$> links)
    (tag_cell "Task" <$> details) (tag_cell "Library" <$> details)
    (tag_cell "Dataset" <$> details) (tag_cell "Language" <$> details)
    (tag_cell "Others" <$> details) (tag_cell "Arxiv" <$> details)
    (tag_cell "License" <$> details) (github_cell <$> details)
    (omap card_of details).

End RunRows.

(** Every character of [s] satisfies [p]. *)
Fixpoint all_chars (p : ascii -> bool) (s : string) : bool :=
  match s with
  | EmptyString => true
  | String a s' => p a && all_chars p s'
  end.

(** The seven category names. *)
Definition category_keys : gset string :=
  {[ "Task"; "Library"; "Language"; "Others"; "Arxiv"; "License"; "Dataset" ]}.

(** A computation only ever adds requests to the history. *)
Definition extends {A} (m : M A) : Prop :=
  forall log, log `prefix_of` (m log).2.

(** How often [u] is a member of the list [l]. *)
Definition occurrences (u : string) (l : list string) : nat :=
  length (List.filter (fun x => String.eqb x u) l).

(** The value part of an outcome, without the cache. *)
Definition output {X} (r : res (list X * Cache) * list string) : res (list X) :=
  match r.1 with
  | Ok (xs, _) => Ok xs
  | Raise e => Raise e
  end.

(** The spec's reading of the licence rule: one leading label is removed. *)
Definition strip_leading_label (label s : string) : string :=
  if String.prefix label s then Py.drop (String.length label) s else s.

(** ** A small site for the examples

    A transport that serves a fixed table of pages, a parser that reads a
    fixed table of documents, and simple stand-ins for [urllib.parse]
    (the query is what follows the first question mark; it is read as
    [key=value] pairs separated by ampersands).  The set order is the order
    of first insertion. *)

Module Fixture.

Fixpoint assoc {V} (k : string) (l : list (string * V)) : option V :=
  match l with
  | [] => None
  | (k', v) :: l' => if String.eqb k k' then Some v else assoc k l'
  end.

Definition query_of (s : string) : string :=
  match Py.split "?" s with
  | _ :: q :: _ => q
  | _ => ""
  end.

Definition before_query (s : string) : string :=
  match Py.split "?" s with
  | p :: _ => p
  | [] => s
  end.

Definition pairs_of (q : string) : gmap string (list string) :=
  foldr
    (fun kv m =>
       match Py.split "=" kv with
       | [k; v] =>
           if String.eqb v "" then m
           else <[k := v :: default [] (m !! k)]> m
       | _ => m
       end)
    ∅ (Py.split "&" q).

#[local] Program Instance site (pages : list (string * string))
    (documents : list (string * Soup)) : Collaborators := {|
  requests_get _ url := assoc url pages;
  BeautifulSoup text := default [] (assoc text documents);
  urlparse href := Ok {| scheme := ""; netloc := ""; path := before_query href;
                         params := ""; query := query_of href; fragment := "" |};
  parse_qs q := Ok (pairs_of q);
  urljoin base ref := before_query base +:+ ref;
  set_iter l := remove_dups l
|}.
Next Obligation. intros. apply NoDup_remove_dups. Qed.
Next Obligation. intros. apply elem_of_remove_dups. Qed.

(** A listing page with three model links (the last with one separator
    only), a block without a link and a pagination control whose last item
    points at page 7; one detail page shared by the models; and a listing
    page whose only block links to a path without a separator. *)
Definition base_url : string := "https://huggingface.co/models".

Definition listing_text : string := "<html>listing</html>".
Definition detail_text : string :=
  "<main>pip install git+https://github.com/a/b </main>".
Definition flat_text : string := "<html>flat</html>".

Definition anchor (href text : string) : Node :=
  Element "a" [("href", href)] [NavigableString text].

Definition last_link : Node := anchor "/models?p=7&sort=trending" "8".

Definition last_item : Node :=
  Element "li" [("class", "hidden sm:block")] [last_link].

Definition source_link : Node := anchor "https://github.com/a/b" "source".

Definition listing_doc : Soup :=
  [Element "html" []
     [Element "a" [("class", "block p-2"); ("href", "/alice/m1")] [];
      Element "a" [("class", "block p-2"); ("href", "/bob/m2")] [];
      Element "a" [("class", "block p-2"); ("href", "/solo")] [];
      Element "div" [("class", "block p-2")] [];
      Element "ul" []
        [Element "li" [("class", "hidden sm:block")]
           [anchor "/models?p=1&sort=trending" "2"];
         last_item]]].

Definition detail_doc : Soup :=
  [Element "main" [("class", "flex flex-1 flex-col")]
     [NavigableString "pip install git+https://github.com/a/b ";
      source_link;
      anchor "/models?license=license%3Aother" "Community License: v2";
      anchor "/models?other=arxiv%3A1234" "arxiv:1234"]].

Definition flat_doc : Soup :=
  [Element "a" [("class", "block p-2"); ("href", "models")] [];
   Element "li" [("class", "hidden sm:block")]
     [anchor "/models?p=0&sort=trending" "1"]].

Definition page (n : string) : string :=
  "https://huggingface.co/models?p=" +:+ n +:+ "&sort=trending".

Definition example_site : Collaborators :=
  site
    [(base_url, listing_text); (page "0", listing_text);
     ("https://huggingface.co/alice/m1", detail_text);
     ("https://huggingface.co/bob/m2", detail_text);
     ("https://huggingface.co/solo", detail_text)]
    [(listing_text, listing_doc); (detail_text, detail_doc)].

Definition flat_site : Collaborators :=
  site [(base_url, flat_text); (page "0", flat_text)] [(flat_text, flat_doc)].

(** A base page whose last pagination link carries no page number. *)
Definition plain_text : string := "<html>plain</html>".

Definition plain_link : Node := anchor "/models?sort=trending" "next".

Definition plain_item : Node :=
  Element "li" [("class", "hidden sm:block")] [plain_link].

Definition plain_site : Collaborators :=
  site [(base_url, plain_text)] [(plain_text, [plain_item])].

(** A site that cannot be reached, and one whose base page is empty. *)
Definition offline_site : Collaborators := site [] [].

Definition bare_site : Collaborators := site [(base_url, flat_text)] [].

End Fixture.

(** ** Loops over the cache *)

Section Passes.
Context `{C : Collaborators}.

Lemma get_or_cache_html_sem (url : string) (cache : Cache) (log : list string) :
  get_or_cache_html url cache log =
    let '(rt, c', l') := lookup_or_fetch url cache log in (Ok (rt, c'), l').
Proof.
  unfold get_or_cache_html, lookup_or_fetch.
  destruct (cache !! url); reflexivity.
Qed.

Lemma for_pass_sem {X} (g : string -> res (list X)) body :
  pass_body g body ->
  forall urls acc cache log,
    for_ urls body (acc, cache) log = pass_sem g urls acc cache log.
Proof.
  intros Hbody urls. induction urls as [|u us IH]; intros acc cache log.
  - reflexivity.
  - simpl. unfold bind. rewrite Hbody.
    destruct (lookup_or_fetch u cache log) as [[rt c'] l'].
    destruct rt as [text|]; [destruct (g text) as [xs|e]|]; auto.
Qed.

Ltac pass_body_tac :=
  let u := fresh "u" in let a := fresh "a" in
  let c := fresh "c" in let l := fresh "l" in
  intros u a c l; unfold bind;
  rewrite get_or_cache_html_sem;
  destruct (lookup_or_fetch u c l) as [[[?|] ?] ?];
  simpl; [|reflexivity];
  unfold lift;
  repeat match goal with
         | |- context [match ?r with Ok _ => _ | Raise _ => _ end] =>
             destruct r; simpl
         end;
  reflexivity.

Lemma scrape_model_names_sem urls cache log :
  scrape_model_names urls cache log = pass_sem names_of urls [] cache log.
Proof.
  apply (for_pass_sem names_of). unfold names_of, block_hrefs. pass_body_tac.
Qed.

Lemma scrape_model_repositories_sem urls cache log :
  scrape_model_repositories urls cache log = pass_sem repos_of urls [] cache log.
Proof.
  apply (for_pass_sem repos_of). unfold repos_of, block_hrefs. pass_body_tac.
Qed.

Lemma model_addresses_sem urls cache log :
  model_addresses urls cache log =
    pass_sem (fun text => Ok (block_hrefs text)) urls [] cache log.
Proof.
  apply (for_pass_sem (fun text => Ok (block_hrefs text))).
  unfold block_hrefs. pass_body_tac.
Qed.

Lemma fetch_huggingface_model_urls_sem urls cache log :
  fetch_huggingface_model_urls urls cache log =
    pass_sem (fun text => Ok ((fun href => origin +:+ href) <$> block_hrefs text))
      urls [] cache log.
Proof.
  apply (for_pass_sem
           (fun text => Ok ((fun href => origin +:+ href) <$> block_hrefs text))).
  unfold block_hrefs. pass_body_tac.
Qed.

Lemma scrape_github_links_sem urls cache log :
  scrape_github_links urls cache log = pass_sem github_of urls [] cache log.
Proof.
  apply (for_pass_sem github_of). unfold github_of, links_of, href_anchors.
  pass_body_tac.
Qed.

End Passes.

(** ** The cache along a pass *)

Section CacheFacts.
Context `{C : Collaborators}.

Lemma lookup_or_fetch_hit u (cache : Cache) log v :
  cache !! u = Some v -> lookup_or_fetch u cache log = (v, cache, log).
Proof. intros H. unfold lookup_or_fetch. by rewrite H. Qed.

Lemma lookup_or_fetch_post u (cache : Cache) log rt c' l' :
  lookup_or_fetch u cache log = (rt, c', l') ->
  c' !! u = Some rt /\ cache ⊆ c' /\ log `prefix_of` l'.
Proof.
  unfold lookup_or_fetch. destruct (cache !! u) as [v|] eqn:Hu; intros [= <- <- <-].
  - done.
  - split; [by rewrite lookup_insert_eq|].
    split; [by apply insert_subseteq | by apply prefix_app_r].
Qed.

Lemma visit_hit (urls : list string) (cache : Cache) log :
  (forall u, u ∈ urls -> is_Some (cache !! u)) ->
  visit urls cache log = (omap (cached cache) urls, cache, log).
Proof.
  induction urls as [|u us IH]; intros Hall; [done|].
  destruct (Hall u) as [v Hv]; [left|].
  simpl. rewrite (lookup_or_fetch_hit _ _ _ _ Hv).
  rewrite IH by (intros; apply Hall; by right).
  assert (cached cache u = v) as Hc by (unfold cached; by rewrite Hv).
  simpl. rewrite Hc. by destruct v.
Qed.

Lemma visit_post urls (cache : Cache) log ts c' l' :
  visit urls cache log = (ts, c', l') ->
  cache ⊆ c' /\ log `prefix_of` l'
  /\ (forall u, u ∈ urls -> is_Some (c' !! u))
  /\ ts = omap (cached c') urls.
Proof.
  revert cache log ts c' l'.
  induction urls as [|u us IH]; intros cache log ts c' l'; simpl.
  - intros [= <- <- <-]. repeat split; try done. intros u Hu. by inversion Hu.
  - destruct (lookup_or_fetch u cache log) as [[rt c1] l1] eqn:Hf.
    destruct (visit us c1 l1) as [[ts1 c2] l2] eqn:Hv.
    intros [= <- <- <-].
    apply lookup_or_fetch_post in Hf as (Hu & Hsub1 & Hpre1).
    apply IH in Hv as (Hsub2 & Hpre2 & Hcov & Hts).
    assert (Hu2 : c2 !! u = Some rt) by (eapply lookup_weaken; eauto).
    split; [by etrans|]. split; [by etrans|]. split.
    + intros u' [->|Hin]%elem_of_cons; [by eexists | by apply Hcov].
    + assert (cached c2 u = rt) as Hc by (unfold cached; by rewrite Hu2).
      subst ts1. simpl. rewrite Hc. by destruct rt.
Qed.

(** Visiting the same URLs again, later in the run, shows the same markup
    and requests nothing. *)
Lemma visit_again urls (cache : Cache) log ts c' l' :
  visit urls cache log = (ts, c', l') ->
  forall l'', visit urls c' l'' = (ts, c', l'').
Proof.
  intros (_ & _ & Hcov & ->)%visit_post l''. by apply visit_hit.
Qed.


(** A pass whose per-page function does not raise on the pages it sees
    collects the per-page results in order. *)
Lemma pass_sem_visit {X} (g : string -> res (list X)) (g' : string -> list X)
    urls acc (cache : Cache) log :
  (forall t, t ∈ (visit urls cache log).1.1 -> g t = Ok (g' t)) ->
  pass_sem g urls acc cache log =
    (Ok (acc ++ mjoin (g' <$> (visit urls cache log).1.1),
         (visit urls cache log).1.2),
     (visit urls cache log).2).
Proof.
  revert acc cache log.
  induction urls as [|u us IH]; intros acc cache log; simpl.
  - intros _. by rewrite app_nil_r.
  - destruct (lookup_or_fetch u cache log) as [[rt c1] l1] eqn:Hf.
    destruct (visit us c1 l1) as [[ts1 c2] l2] eqn:Hv. simpl.
    intros Hg.
    assert (Hg1 : forall t, t ∈ (visit us c1 l1).1.1 -> g t = Ok (g' t)).
    { rewrite Hv. simpl. intros t Ht. apply Hg. destruct rt; [by right|done]. }
    destruct rt as [text|].
    + rewrite (Hg text) by left. rewrite (IH _ _ _ Hg1), Hv. simpl.
      by rewrite <- app_assoc.
    + by rewrite (IH _ _ _ Hg1), Hv.
Qed.

End CacheFacts.

(** ** Splitting a link at its separators *)

Section Segments.

Lemma split_length c s : length (Py.split c s) = S (Py.count c s).
Proof.
  induction s as [|a s IH]; simpl; [done|].
  destruct (Ascii.eqb a c); simpl; [by rewrite IH|].
  destruct (Py.split c s); simpl in *; lia.
Qed.


Lemma split_no_sep c s : Py.count c s = O -> Py.split c s = [s].
Proof.
  induction s as [|a s IH]; simpl; [done|].
  destruct (Ascii.eqb a c); [done|]. intros H. by rewrite IH.
Qed.




Lemma getitem_last {A} (l : list A) :
  getitem l (-1) = match last l with Some x => Ok x | None => Raise IndexError end.
Proof.
  unfold getitem. change (-1 <? 0) with true. cbv iota.
  destruct l as [|a l] using rev_ind; [done|].
  rewrite last_snoc, length_app. simpl.
  replace (Z.of_nat (length l + 1) + -1) with (Z.of_nat (length l)) by lia.
  destruct (Z.ltb_spec (Z.of_nat (length l)) 0); [lia|].
  rewrite Nat2Z.id. by rewrite list_lookup_middle.
Qed.

Lemma getitem_1 {A} (l : list A) :
  getitem l 1 = match l !! 1%nat with Some x => Ok x | None => Raise IndexError end.
Proof. reflexivity. Qed.

Lemma comprehension_ok {A B} (f : A -> res B) (f' : A -> B) (l : list A) :
  (forall x, x ∈ l -> f x = Ok (f' x)) -> comprehension f l = Ok (f' <$> l).
Proof.
  induction l as [|x l IH]; intros H; [done|].
  simpl. rewrite (H x) by left. rewrite IH; [done|].
  intros; apply H; by right.
Qed.

Lemma name_entry_ok href :
  (if (2 <=? Py.count "/" href)%nat
   then getitem (Py.split "/" href) (-1) else Ok " ") = Ok (name_of href).
Proof.
  unfold name_of. destruct (2 <=? Py.count "/" href)%nat; [|done].
  rewrite getitem_last.
  destruct (Py.split "/" href) as [|w ws] eqn:Hs using rev_ind.
  - pose proof (split_length "/" href) as Hl. by rewrite Hs in Hl.
  - by rewrite last_snoc.
Qed.

Lemma owner_entry_ok href :
  (1 <= Py.count "/" href)%nat ->
  getitem (Py.split "/" href) 1 = Ok (owner_of href).
Proof.
  intros Hc. rewrite getitem_1. unfold owner_of.
  pose proof (split_length "/" href) as Hl.
  destruct (Py.split "/" href !! 1%nat) eqn:Hk; [done|].
  apply lookup_ge_None in Hk. lia.
Qed.

Lemma owner_entry_raises href :
  Py.count "/" href = O -> getitem (Py.split "/" href) 1 = Raise IndexError.
Proof. intros Hc. by rewrite (split_no_sep _ _ Hc). Qed.

End Segments.

(** ** The listing passes *)

Section Listing.
Context `{C : Collaborators}.

Lemma join_fmap_fmap {A B T} (f : A -> B) (h : T -> list A) (ts : list T) :
  mjoin ((fun t => f <$> h t) <$> ts) = f <$> mjoin (h <$> ts).
Proof.
  induction ts as [|t ts IH]; [done|].
  csimpl. by rewrite fmap_app, IH.
Qed.

Lemma model_addresses_links urls cache log :
  model_addresses urls cache log =
    (Ok (listing_links urls cache log, (visit urls cache log).1.2),
     (visit urls cache log).2).
Proof.
  rewrite model_addresses_sem.
  by rewrite (pass_sem_visit _ block_hrefs).
Qed.

Lemma fetch_huggingface_model_urls_links urls cache log :
  fetch_huggingface_model_urls urls cache log =
    (Ok ((fun href => origin +:+ href) <$> listing_links urls cache log,
         (visit urls cache log).1.2),
     (visit urls cache log).2).
Proof.
  rewrite fetch_huggingface_model_urls_sem.
  rewrite (pass_sem_visit _ (fun t => (fun href => origin +:+ href) <$> block_hrefs t))
    by done.
  unfold listing_links. by rewrite join_fmap_fmap.
Qed.

Lemma scrape_model_names_links urls cache log :
  scrape_model_names urls cache log =
    (Ok (name_of <$> listing_links urls cache log, (visit urls cache log).1.2),
     (visit urls cache log).2).
Proof.
  rewrite scrape_model_names_sem.
  rewrite (pass_sem_visit _ (fun t => name_of <$> block_hrefs t)).
  - unfold listing_links. by rewrite join_fmap_fmap.
  - intros t _. unfold names_of. apply comprehension_ok.
    intros href _. apply name_entry_ok.
Qed.

Lemma scrape_model_repositories_links urls cache log :
  (forall href, href ∈ listing_links urls cache log -> (1 <= Py.count "/" href)%nat) ->
  scrape_model_repositories urls cache log =
    (Ok (owner_of <$> listing_links urls cache log, (visit urls cache log).1.2),
     (visit urls cache log).2).
Proof.
  intros Hsep. rewrite scrape_model_repositories_sem.
  rewrite (pass_sem_visit _ (fun t => owner_of <$> block_hrefs t)).
  - unfold listing_links. by rewrite join_fmap_fmap.
  - intros t Ht. unfold repos_of. apply comprehension_ok.
    intros href Hin. apply owner_entry_ok, Hsep.
    unfold listing_links. apply list_elem_of_join.
    exists (block_hrefs t). split; [done|]. by apply list_elem_of_fmap_2.
Qed.


End Listing.

(** C10.  The repository pass indexes the second segment of every link
    without a guard.  When every link met has a separator, the pass
    completes with one entry per link, the second segment of that link.
    There is a listing page (one block linking to a path without a
    separator) on which the pass raises [IndexError], which [run] does not
    handle, while the name pass puts a single space there.  The name pass
    returns on every input. *)
Theorem C10_repository_pass_unguarded :
  (forall (C : Collaborators) (href_values : list string) (cache : Cache)
          (log links : list string) (c1 : Cache) (l1 : list string),
      model_addresses href_values cache log = (Ok (links, c1), l1) ->
      (forall href, href ∈ links -> (1 <= Py.count "/" href)%nat) ->
      exists repos : list string,
        scrape_model_repositories href_values cache log = (Ok (repos, c1), l1)
        /\ length repos = length links
        /\ (forall (i : nat) href,
              links !! i = Some href ->
              repos !! i = Py.split "/" href !! 1%nat))
  /\ (exists (C : Collaborators) (href_values : list string) (cache : Cache)
             (log : list string),
        (exists href, href ∈ listing_links href_values cache log
                      /\ Py.count "/" href = O)
        /\ (exists l, scrape_model_repositories href_values cache log
                      = (Raise IndexError, l))
        /\ (exists c l, scrape_model_names href_values cache log
                        = (Ok ([" "], c), l))
        /\ (exists l, run [] = (Raise IndexError, l)))
  /\ (forall (C : Collaborators) (href_values : list string) (cache : Cache)
             (log : list string),
        exists names c l,
          scrape_model_names href_values cache log = (Ok (names, c), l)).
Proof.
  split; [|split].
  - intros C href_values cache log links c1 l1.
    rewrite model_addresses_links. intros [= <- <- <-] Hsep.
    exists (owner_of <$> listing_links href_values cache log).
    split; [by apply scrape_model_repositories_links|].
    split; [apply length_fmap|].
    intros i href Hi. rewrite list_lookup_fmap, Hi. simpl.
    unfold owner_of.
    destruct (Py.split "/" href !! 1%nat) eqn:Hk; [done|].
    apply lookup_ge_None in Hk. rewrite split_length in Hk.
    assert (1 <= Py.count "/" href)%nat
      by (apply Hsep, list_elem_of_lookup; eauto).
    lia.
  - exists Fixture.flat_site, [Fixture.base_url], ∅, [].
    split; [|split; [|split]].
    + exists "models". split; [|reflexivity].
      vm_compute. left.
    + eexists. vm_compute. reflexivity.
    + eexists _, _. vm_compute. reflexivity.
    + eexists. vm_compute. reflexivity.
  - intros C href_values cache log. eexists _, _, _.
    apply scrape_model_names_links.
Qed.

(** C6.  The URL pass returns the addresses of the address pass, each with
    the origin in front: from the same cache and request history, and also
    when it runs on the cache the address pass has left, however many
    requests were made in between. *)
Theorem C6_url_is_origin_plus_address `{C : Collaborators}
    (href_values : list string) (cache : Cache) (log : list string) :
  exists (addresses : list string) (c' : Cache) (l' : list string),
    model_addresses href_values cache log = (Ok (addresses, c'), l')
    /\ fetch_huggingface_model_urls href_values cache log
         = (Ok ((fun address => origin +:+ address) <$> addresses, c'), l')
    /\ (forall l'' : list string,
          fetch_huggingface_model_urls href_values c' l''
            = (Ok ((fun address => origin +:+ address) <$> addresses, c'), l''))
    /\ origin = "https://huggingface.co".
Proof.
  destruct (visit href_values cache log) as [[ts c'] l'] eqn:Hv.
  exists (listing_links href_values cache log), c', l'.
  split; [by rewrite model_addresses_links, Hv|].
  split; [by rewrite fetch_huggingface_model_urls_links, Hv|].
  split; [|done].
  intros l''. rewrite fetch_huggingface_model_urls_links.
  unfold listing_links. by rewrite (visit_again _ _ _ _ _ _ Hv l''), Hv.
Qed.

(** ** External repository links *)

Section GithubLinks.
Context `{C : Collaborators}.

Lemma comprehension_getattr (p : Node -> bool) (l : list Node) :
  (forall n, p n = true -> is_Some (Bs4.get "href" n)) ->
  comprehension (fun link => Bs4.getattr link "href") (List.filter p l)
    = Ok (omap (Bs4.get "href") (List.filter p l)).
Proof.
  intros Hp. induction l as [|n l IH]; [done|].
  simpl. destruct (p n) eqn:Hn; [|done].
  destruct (Hp n Hn) as [v Hv].
  simpl. unfold Bs4.getattr at 1. rewrite Hv, IH. done.
Qed.

Lemma links_of_ok text :
  links_of text = Ok (omap (Bs4.get "href") (href_anchors text)).
Proof.
  apply comprehension_getattr.
  intros n [_ Hn%bool_decide_eq_true]%andb_prop. done.
Qed.

Lemma github_of_ok text :
  github_of text = Ok [Py.join ", " (set_iter (github_insertions text))].
Proof. unfold github_of. by rewrite links_of_ok. Qed.

Lemma join_fmap_singleton {A T} (h : T -> A) (ts : list T) :
  mjoin ((fun t => [h t]) <$> ts) = h <$> ts.
Proof. induction ts as [|t ts IH]; [done|]. csimpl. by rewrite IH. Qed.

Lemma scrape_github_links_visit urls cache log :
  scrape_github_links urls cache log =
    (Ok ((fun t => Py.join ", " (set_iter (github_insertions t)))
           <$> (visit urls cache log).1.1,
         (visit urls cache log).1.2),
     (visit urls cache log).2).
Proof.
  rewrite scrape_github_links_sem.
  rewrite (pass_sem_visit _
             (fun t => [Py.join ", " (set_iter (github_insertions t))])).
  - by rewrite join_fmap_singleton.
  - intros t _. apply github_of_ok.
Qed.

Lemma occurrences_NoDup (u : string) (l : list string) :
  NoDup l -> u ∈ l -> occurrences u l = 1%nat.
Proof.
  unfold occurrences. induction 1 as [|x l Hx Hl IH]; [by inversion 1|].
  simpl. destruct (String.eqb_spec x u) as [->|Hne].
  - intros _. simpl. f_equal.
    clear IH Hl. induction l as [|y l IH]; [done|].
    simpl. destruct (String.eqb_spec y u) as [->|_].
    + exfalso. apply Hx. left.
    + apply IH. intros H. apply Hx. by right.
  - intros [->|Hin]%elem_of_cons; [done | by apply IH].
Qed.

Lemma occurrences_app (u : string) (l1 l2 : list string) :
  occurrences u (l1 ++ l2) = (occurrences u l1 + occurrences u l2)%nat.
Proof. unfold occurrences. by rewrite List.filter_app, length_app. Qed.

Lemma occurrences_elem (u : string) (l : list string) :
  u ∈ l -> (1 <= occurrences u l)%nat.
Proof.
  unfold occurrences. induction 1 as [x l|x y l Hin IH]; simpl.
  - rewrite String.eqb_refl. simpl. lia.
  - destruct (String.eqb y x); simpl; lia.
Qed.

(** C5.  A GitHub URL that the install-command pattern captures on a detail
    page and that is also the href of an anchor of that page is inserted by
    both mechanisms and is a member of the page's joined output exactly
    once: the joined members are the iteration of one set that holds the
    finds of both. *)
Theorem C5_github_link_reported_once
    (url : string) (cache : Cache) (log : list string) (text u : string)
    (a : Node) (c' : Cache) (l' : list string) :
  lookup_or_fetch url cache log = (Some text, c', l') ->
  u ∈ Re.findall_pip_install text ->
  a ∈ href_anchors text ->
  Bs4.get "href" a = Some u ->
  Py.startswith u "https://github.com/" || Py.startswith u "http://github.com/"
    = true ->
  exists members : list string,
    scrape_github_links [url] cache log = (Ok ([Py.join ", " members], c'), l')
    /\ occurrences u members = 1%nat
    /\ NoDup members
    /\ (forall x, x ∈ members <-> x ∈ github_insertions text)
    /\ (2 <= occurrences u (github_insertions text))%nat.
Proof.
  intros Hf Hpip Ha Hhref Hgh.
  exists (set_iter (github_insertions text)).
  split; [|split; [|split; [|split]]]; cycle 4.
  { unfold github_insertions. rewrite occurrences_app.
    pose proof (occurrences_elem _ _ Hpip).
    assert (u ∈ List.filter
              (fun href =>
                 Py.startswith href "https://github.com/"
                 || Py.startswith href "http://github.com/")
              (omap (Bs4.get "href") (href_anchors text))) as Hin.
    { apply list_elem_of_In, filter_In. split; [|done].
      apply list_elem_of_In, list_elem_of_omap. eauto. }
    pose proof (occurrences_elem _ _ Hin). lia. }
  - rewrite scrape_github_links_visit. simpl. by rewrite Hf.
  - apply occurrences_NoDup; [apply set_iter_NoDup|].
    apply set_iter_elem. unfold github_insertions.
    apply elem_of_app. by left.
  - apply set_iter_NoDup.
  - intros x. apply set_iter_elem.
Qed.


End GithubLinks.

(** ** Aggregation *)

Section Aggregation.

Ltac nil_or_cons l :=
  destruct l; [solve [simpl; done] |].

Lemma zip_rows_length l0 l1 l2 l3 l4 l5 l6 l7 l8 l9 l10 l11 l12 l13 :
  length (zip_rows l0 l1 l2 l3 l4 l5 l6 l7 l8 l9 l10 l11 l12 l13) =
    Nat.min (length l0)
      (foldr Nat.min (length l13)
         (length <$> [l1; l2; l3; l4; l5; l6; l7; l8; l9; l10; l11; l12])).
Proof.
  revert l1 l2 l3 l4 l5 l6 l7 l8 l9 l10 l11 l12 l13.
  induction l0 as [|x0 l0 IH]; intros; [done|].
  nil_or_cons l1. nil_or_cons l2. nil_or_cons l3. nil_or_cons l4.
  nil_or_cons l5. nil_or_cons l6. nil_or_cons l7. nil_or_cons l8.
  nil_or_cons l9. nil_or_cons l10. nil_or_cons l11. nil_or_cons l12.
  nil_or_cons l13.
  simpl. by rewrite IH.
Qed.

Lemma zip_rows_lookup l0 l1 l2 l3 l4 l5 l6 l7 l8 l9 l10 l11 l12 l13 (i : nat) r :
  zip_rows l0 l1 l2 l3 l4 l5 l6 l7 l8 l9 l10 l11 l12 l13 !! i = Some r ->
  l0 !! i = Some (index r) /\ l1 !! i = Some (name r)
  /\ l2 !! i = Some (repo r) /\ l3 !! i = Some (address r)
  /\ l4 !! i = Some (url r) /\ l5 !! i = Some (Task r)
  /\ l6 !! i = Some (Library r) /\ l7 !! i = Some (Dataset r)
  /\ l8 !! i = Some (Language r) /\ l9 !! i = Some (Others r)
  /\ l10 !! i = Some (Arxiv r) /\ l11 !! i = Some (License r)
  /\ l12 !! i = Some (githubLinks r) /\ l13 !! i = Some (description r).
Proof.
  revert l1 l2 l3 l4 l5 l6 l7 l8 l9 l10 l11 l12 l13 i.
  induction l0 as [|x0 l0 IH]; intros; [done|].
  nil_or_cons l1. nil_or_cons l2. nil_or_cons l3. nil_or_cons l4.
  nil_or_cons l5. nil_or_cons l6. nil_or_cons l7. nil_or_cons l8.
  nil_or_cons l9. nil_or_cons l10. nil_or_cons l11. nil_or_cons l12.
  nil_or_cons l13.
  destruct i as [|i]; simpl in *.
  - by simplify_eq.
  - by apply IH.
Qed.

(** C4.  The rows are the positional zip of the thirteen field sequences
    with the numbers from 1: there are as many rows as the shortest
    sequence has entries (nothing is re-aligned); row [i] carries the
    number [i + 1] and entry [i] of every sequence, in the column order
    index, name, repo, address, url, Task, Library, Dataset, Language,
    Others, Arxiv, License, githubLinks, description; and sequences of one
    common length [K] give exactly [K] rows numbered [1..K]. *)
Theorem C4_rows_zip_positionally
    (names repos addresses urls task library dataset language others arxiv
       license github cards : list string) :
  let rows :=
    make_rows names repos addresses urls task library dataset language
      others arxiv license github cards in
  length rows =
    foldr Nat.min (length cards)
      (length <$> [names; repos; addresses; urls; task; library; dataset;
                   language; others; arxiv; license; github])
  /\ (forall (i : nat) r,
        rows !! i = Some r ->
        exists n rp ad u t lb d lg o ax lc g c,
          names !! i = Some n /\ repos !! i = Some rp
          /\ addresses !! i = Some ad /\ urls !! i = Some u
          /\ task !! i = Some t /\ library !! i = Some lb
          /\ dataset !! i = Some d /\ language !! i = Some lg
          /\ others !! i = Some o /\ arxiv !! i = Some ax
          /\ license !! i = Some lc /\ github !! i = Some g
          /\ cards !! i = Some c
          /\ index r = Z.of_nat i + 1
          /\ columns r =
               [Py.str (Z.of_nat i + 1); n; rp; ad; u; t; lb; d; lg; o; ax;
                lc; g; c])
  /\ (forall K : nat,
        Forall (fun l => length l = K)
          [names; repos; addresses; urls; task; library; dataset; language;
           others; arxiv; license; github; cards] ->
        length rows = K /\ index <$> rows = seqZ 1 (Z.of_nat K)).
Proof.
  intros rows.
  assert (Hlen : length rows =
    foldr Nat.min (length cards)
      (length <$> [names; repos; addresses; urls; task; library; dataset;
                   language; others; arxiv; license; github])).
  { unfold rows, make_rows. rewrite zip_rows_length.
    unfold Py.range. simpl. rewrite length_seqZ.
    replace (Z.to_nat (Z.of_nat (length names) + 1 - 1)) with (length names)
      by lia.
    by rewrite Nat.min_assoc, Nat.min_id. }
  assert (Hidx : forall (i : nat) r, rows !! i = Some r -> index r = Z.of_nat i + 1).
  { intros i r Hr. apply zip_rows_lookup in Hr as (H0 & _).
    apply lookup_seqZ in H0 as [-> _]. lia. }
  split; [done|]. split.
  - intros i r Hr. pose proof (Hidx i r Hr) as Hi.
    apply zip_rows_lookup in Hr
      as (_ & H1 & H2 & H3 & H4 & H5 & H6 & H7 & H8 & H9 & H10 & H11 & H12 & H13).
    exists (name r), (repo r), (address r), (url r), (Task r), (Library r),
      (Dataset r), (Language r), (Others r), (Arxiv r), (License r),
      (githubLinks r), (description r).
    unfold columns. rewrite Hi. repeat split; done.
  - intros K HK.
    assert (HlenK : length rows = K).
    { rewrite Hlen. simpl.
      repeat match goal with
             | H : Forall _ (_ :: _) |- _ =>
                 apply Forall_cons_1 in H as [Hl H]; simpl in Hl; rewrite Hl;
                 clear Hl
             end.
      by rewrite !Nat.min_id. }
    split; [done|].
    apply list_eq. intros i. rewrite list_lookup_fmap.
    destruct (rows !! i) as [r|] eqn:Hr; simpl.
    + rewrite (Hidx i r Hr). symmetry. apply lookup_seqZ.
      apply lookup_lt_Some in Hr. lia.
    + symmetry. apply lookup_seqZ_ge. apply lookup_ge_None in Hr. lia.
Qed.

End Aggregation.

(** ** The pagination planner *)

Section Planner.
Context `{C : Collaborators}.

(** The batches of the nested loops, one after the other, are the page
    indices from 0 in order. *)
Lemma batches_cover (B N : Z) (k : nat) :
  0 < B ->
  flat_map (fun b => seqZ b (Z.min (b + B) N - b))
    ((fun i => 0 + i * B) <$> seqZ 0 (Z.of_nat k))
  = seqZ 0 (Z.min (Z.of_nat k * B) N).
Proof.
  intros HB. induction k as [|k IH].
  - simpl. symmetry. apply seqZ_nil. lia.
  - rewrite seqZ_S, fmap_app, flat_map_app, IH. simpl. rewrite app_nil_r.
    destruct (Z.le_gt_cases N (Z.of_nat k * B)) as [Hle|Hgt].
    + rewrite (seqZ_nil (Z.of_nat k * B)) by lia. rewrite app_nil_r.
      f_equal. lia.
    + replace (Z.min (Z.of_nat (S k) * B) N)
        with (Z.min (Z.of_nat k * B) N
              + (Z.min (Z.of_nat k * B + B) N - Z.of_nat k * B)) by lia.
      rewrite seqZ_app by lia. do 2 f_equal; lia.
Qed.

Lemma flat_map_fmap {A B T} (f : A -> B) (g : T -> list A) (l : list T) :
  flat_map (fun t => f <$> g t) l = f <$> flat_map g l.
Proof.
  induction l as [|t l IH]; [done|]. simpl. by rewrite fmap_app, IH.
Qed.

Lemma page_urls_full base_url (P B : Z) starts :
  0 < B ->
  Py.range_step 0 (P + 1) B = Some starts ->
  page_urls base_url P B starts = page_url base_url <$> seqZ 0 (P + 1).
Proof.
  intros HB. unfold Py.range_step.
  destruct (Z.eqb_spec B 0) as [|_]; [lia|].
  destruct (Z.ltb_spec 0 B) as [_|]; [|lia].
  intros [= <-]. unfold page_urls, Py.range.
  etrans;
    [exact (flat_map_fmap (page_url base_url)
              (fun b => seqZ b (Z.min (b + B) (P + 1) - b)) _)|].
  f_equal.
  set (n := (P + 1 - 0 + B - 1) `div` B).
  assert (Hn : B * n <= P + B < B * n + B).
  { unfold n. replace (P + 1 - 0 + B - 1) with (P + B) by lia.
    pose proof (Z.div_mod (P + B) B ltac:(lia)).
    pose proof (Z.mod_pos_bound (P + B) B HB). lia. }
  destruct (Z.le_gt_cases n 0) as [Hle|Hgt].
  - rewrite (seqZ_nil 0 n) by done. simpl.
    symmetry. apply seqZ_nil. nia.
  - rewrite <- (Z2Nat.id n) by lia. rewrite (batches_cover B (P + 1)) by done.
    f_equal. rewrite Z2Nat.id by lia. nia.
Qed.

Lemma generate_sem base_url batch_size log :
  generate_model_page_urls_with_pagination base_url batch_size log =
    (Ok match requests_get log base_url with
        | None => []
        | Some text =>
            match max_page_of text with
            | Raise _ => []
            | Ok max_page =>
                match Py.range_step 0 (max_page + 1) batch_size with
                | None => []
                | Some starts =>
                    take 3 (page_urls base_url max_page batch_size starts)
                end
            end
        end,
     log ++ [base_url]).
Proof.
  unfold generate_model_page_urls_with_pagination, try_except, bind,
    get_or_cache_html, fetch_html_content, max_page_of, pagination_items,
    lift, ret.
  rewrite lookup_empty. simpl.
  destruct (requests_get log base_url) as [text|]; simpl; [|done].
  destruct (getitem _ (-1)) as [li|]; simpl; [|done].
  destruct (Bs4.find _ li) as [a|]; simpl; [|done].
  destruct (Bs4.getattr a "href") as [last_href|]; simpl; [|done].
  destruct (urlparse last_href) as [parsed_url|]; simpl; [|done].
  destruct (parse_qs _) as [query_params|]; simpl; [|done].
  destruct (query_params !! "p") as [values|]; simpl.
  - destruct (getitem values 0) as [v|]; simpl; [|done].
    destruct (Py.int v) as [n|]; simpl; [|done].
    by destruct (Py.range_step 0 (n + 1) batch_size).
  - by destruct (Py.range_step 0 (0 + 1) batch_size).
Qed.


Lemma max_page_of_fails base_url log text :
  planner_failure base_url log ->
  requests_get log base_url = Some text ->
  exists e, max_page_of text = Raise e.
Proof.
  unfold max_page_of, Bs4.getattr.
  intros [Hnone|t Ht Hnil|t li Ht Hli Ha|t li a Ht Hli Ha Hhref
          |t li a href e Ht Hli Ha Hhref Hurl
          |t li a href pr e Ht Hli Ha Hhref Hurl Hqs
          |t li a href pr qs v vs Ht Hli Ha Hhref Hurl Hqs Hp Hint] Htext;
    rewrite Htext in *; simplify_eq; rewrite getitem_last.
  - rewrite Hnil. simpl. eauto.
  - rewrite Hli, Ha. eauto.
  - rewrite Hli, Ha, Hhref. eauto.
  - rewrite Hli, Ha, Hhref, Hurl. eauto.
  - rewrite Hli, Ha, Hhref, Hurl, Hqs. eauto.
  - rewrite Hli, Ha, Hhref, Hurl, Hqs, Hp. simpl. rewrite Hint. eauto.
Qed.


(** C8.  When the fetch of the base page fails or a parse step fails, the
    planner returns the empty list; it never raises; and [run], having
    fetched the base page itself, then goes on with no listing page and
    hands zero rows to the sink. *)
Theorem C8_planner_failure_gives_no_pages :
  (forall (base_url : string) (batch_size : Z) (log : list string),
      planner_failure base_url log ->
      generate_model_page_urls_with_pagination base_url batch_size log
        = (Ok [], log ++ [base_url]))
  /\ (forall (base_url : string) (batch_size : Z) (log : list string),
        exists urls : list string,
          generate_model_page_urls_with_pagination base_url batch_size log
            = (Ok urls, log ++ [base_url]))
  /\ (forall (log : list string) (text : string),
        requests_get log "https://huggingface.co/models" = Some text ->
        planner_failure "https://huggingface.co/models"
          (log ++ ["https://huggingface.co/models"]) ->
        run log
          = (Ok (Some []),
             (log ++ ["https://huggingface.co/models"])
               ++ ["https://huggingface.co/models"])).
Proof.
  assert (Hfail : forall base_url batch_size log,
             planner_failure base_url log ->
             generate_model_page_urls_with_pagination base_url batch_size log
               = (Ok [], log ++ [base_url])).
  { intros base_url batch_size log Hf. rewrite generate_sem.
    destruct (requests_get log base_url) as [text|] eqn:Htext; [|done].
    destruct (max_page_of_fails _ _ _ Hf Htext) as [e ->]. done. }
  split; [done|]. split.
  - intros. rewrite generate_sem. eauto.
  - intros log text Htext Hf.
    unfold run, bind. rewrite get_or_cache_html_sem.
    unfold lookup_or_fetch. rewrite lookup_empty, Htext.
    by rewrite (Hfail _ 50 _ Hf).
Qed.

End Planner.

(** ** The request history of a run *)

Section History.
Context `{C : Collaborators}.

Lemma extends_ret {A} (a : A) : extends (ret a).
Proof. by intros log. Qed.

Lemma extends_lift {A} (r : res A) : extends (lift r).
Proof. by intros log. Qed.

Lemma extends_bind {A B} (m : M A) (k : A -> M B) :
  extends m -> (forall a, extends (k a)) -> extends (bind m k).
Proof.
  intros Hm Hk log. unfold bind. specialize (Hm log).
  destruct (m log) as [[a|e] log']; simpl in *; [|done].
  etrans; [done|]. apply Hk.
Qed.

Lemma extends_for_ {A S} (l : list A) (body : A -> S -> M S) (s : S) :
  (forall x s', extends (body x s')) -> extends (for_ l body s).
Proof.
  intros Hbody. revert s. induction l as [|x l IH]; intros s.
  - apply extends_ret.
  - simpl. apply extends_bind; [apply Hbody | apply IH].
Qed.

Lemma extends_get_or_cache_html url (cache : Cache) :
  extends (get_or_cache_html url cache).
Proof.
  intros log. rewrite get_or_cache_html_sem.
  destruct (lookup_or_fetch url cache log) as [[rt c'] l'] eqn:Hf.
  by apply lookup_or_fetch_post in Hf as (_ & _ & ?).
Qed.

Ltac extends_tac :=
  repeat first
    [ apply extends_ret
    | apply extends_lift
    | apply extends_get_or_cache_html
    | apply extends_for_; intros
    | apply extends_bind; [|intros]
    | match goal with
      | |- extends (match ?x with _ => _ end) => destruct x
      end ].

Lemma extends_scrape_model_names hv (c : Cache) : extends (scrape_model_names hv c).
Proof. unfold scrape_model_names. extends_tac. Qed.

Lemma extends_scrape_model_repositories hv (c : Cache) :
  extends (scrape_model_repositories hv c).
Proof. unfold scrape_model_repositories. extends_tac. Qed.

Lemma extends_model_addresses hv (c : Cache) : extends (model_addresses hv c).
Proof. unfold model_addresses. extends_tac. Qed.

Lemma extends_fetch_huggingface_model_urls hv (c : Cache) :
  extends (fetch_huggingface_model_urls hv c).
Proof. unfold fetch_huggingface_model_urls. extends_tac. Qed.

Lemma extends_scrape_model_cards urls (c : Cache) :
  extends (scrape_model_cards urls c).
Proof. unfold scrape_model_cards. extends_tac. Qed.

Lemma extends_scrape_github_links urls (c : Cache) :
  extends (scrape_github_links urls c).
Proof. unfold scrape_github_links. extends_tac. Qed.

Lemma extends_scrape_category_tags urls (c : Cache) :
  extends (scrape_category_tags urls c).
Proof. unfold scrape_category_tags, categorize. extends_tac. Qed.

(** A lookup through a cache that holds the URL requests nothing. *)
Lemma cache_hit_requests_nothing url (cache : Cache) log v :
  cache !! url = Some v ->
  get_or_cache_html url cache log = (Ok (v, cache), log).
Proof.
  intros Hv. rewrite get_or_cache_html_sem.
  by rewrite (lookup_or_fetch_hit _ _ _ _ Hv).
Qed.

(** C7.  When the base page can be fetched, [run] requests it twice in a
    row: once through its own cache, and once more when the planner looks
    it up in a fresh, empty dictionary. *)
Theorem C7_base_page_fetched_twice (log : list string) (text : string) :
  requests_get log "https://huggingface.co/models" = Some text ->
  exists r rest,
    run log
      = (r, log ++ ["https://huggingface.co/models";
                    "https://huggingface.co/models"] ++ rest)
    /\ (2 <= occurrences "https://huggingface.co/models" (run log).2)%nat.
Proof.
  intros Htext.
  assert (exists r rest,
    run log = (r, log ++ ["https://huggingface.co/models";
                          "https://huggingface.co/models"] ++ rest))
    as (r & rest & Hrun).
  { unfold run. unfold bind at 1. rewrite get_or_cache_html_sem.
    unfold lookup_or_fetch. rewrite lookup_empty, Htext.
    unfold bind at 1. rewrite generate_sem.
    match goal with
    | |- exists r rest, ?k ?l = _ =>
        assert (Hext : extends k); [|specialize (Hext l)]
    end.
    { apply extends_bind; [apply extends_scrape_model_names|]. intros [? ?].
      apply extends_bind; [apply extends_scrape_model_repositories|]. intros [? ?].
      apply extends_bind; [apply extends_model_addresses|]. intros [? ?].
      apply extends_bind; [apply extends_fetch_huggingface_model_urls|].
      intros [? ?].
      apply extends_bind; [apply extends_scrape_model_cards|]. intros [? ?].
      apply extends_bind; [apply extends_scrape_github_links|]. intros [? ?].
      apply extends_bind; [apply extends_scrape_category_tags|]. intros [? ?].
      extends_tac. }
    destruct Hext as [rest Hrest].
    match type of Hrest with
    | (?x).2 = _ => destruct x as [r l'] eqn:Hk
    end.
    exists r, rest. simpl in Hrest. rewrite Hrest.
    by rewrite <- !app_assoc. }
  exists r, rest. split; [done|]. rewrite Hrun. simpl.
  rewrite !occurrences_app. unfold occurrences at 2. simpl. lia.
Qed.

End History.

(** ** Categorized tags *)

Section Tags.
Context `{C : Collaborators}.

Lemma heading_of_key href h : heading_of href = Some h -> h ∈ category_keys.
Proof.
  unfold heading_of, category_keys.
  repeat match goal with
         | |- context [if ?b then _ else _] => destruct b
         end;
    intros [= <-]; set_solver.
Qed.

(** The mapping of a page always has the seven keys, and building it never
    raises. *)
Lemma categorize_keys (a_tags : list Node) (log : list string) :
  exists m, categorize a_tags log = (Ok m, log) /\ dom m = category_keys.
Proof.
  unfold categorize.
  assert (Hdom : dom empty_category_items = category_keys).
  { unfold empty_category_items, category_keys.
    rewrite !dom_insert_L, ?dom_singleton_L, ?dom_empty_L. set_solver. }
  revert Hdom. generalize empty_category_items as m0.
  induction a_tags as [|a_tag a_tags IH]; intros m0 Hdom.
  - by exists m0.
  - simpl. unfold bind at 1.
    destruct (heading_of (default "" (Bs4.get "href" a_tag))) as [h|] eqn:Hh.
    + apply heading_of_key in Hh.
      assert (is_Some (m0 !! h)) as [items Hitems]
        by (apply elem_of_dom; by rewrite Hdom).
      unfold bind, lift, getkey, ret. rewrite Hitems.
      apply IH. rewrite dom_insert_L, Hdom.
      by apply subseteq_union_1_L, singleton_subseteq_l.
    + unfold ret. by apply IH.
Qed.

(** The anchors of a page that fall into category [k], in document order. *)
Lemma categorize_spec (a_tags : list Node) (log : list string) :
  exists m,
    categorize a_tags log = (Ok m, log)
    /\ dom m = category_keys
    /\ (forall k, k ∈ category_keys ->
          m !! k =
            Some (tag_text_of k
                    <$> List.filter
                          (fun a =>
                             bool_decide
                               (heading_of (default "" (Bs4.get "href" a))
                                = Some k))
                          a_tags)).
Proof.
  unfold categorize.
  assert (Hdom : dom empty_category_items = category_keys).
  { unfold empty_category_items, category_keys.
    rewrite !dom_insert_L, ?dom_singleton_L, ?dom_empty_L. set_solver. }
  assert (Hinit : forall k, k ∈ category_keys ->
             empty_category_items !! k = Some []).
  { intros k Hk. unfold category_keys in Hk.
    repeat (apply elem_of_union in Hk as [Hk|Hk]);
      apply elem_of_singleton in Hk as ->; reflexivity. }
  enough (forall m0, dom m0 = category_keys ->
            exists m,
              for_ a_tags
                (fun a_tag category_items =>
                   let href := default "" (Bs4.get "href" a_tag) in
                   match heading_of href with
                   | None => ret category_items
                   | Some heading =>
                       let tag_text := tag_text_of heading a_tag in
                       bind (lift (getkey category_items heading))
                         (fun items =>
                            ret (<[heading := items ++ [tag_text]]> category_items))
                   end) m0 log = (Ok m, log)
              /\ dom m = category_keys
              /\ (forall k items, m0 !! k = Some items ->
                    m !! k =
                      Some (items
                              ++ (tag_text_of k
                                    <$> List.filter
                                          (fun a =>
                                             bool_decide
                                               (heading_of
                                                  (default "" (Bs4.get "href" a))
                                                = Some k))
                                          a_tags)))) as Hgen.
  { destruct (Hgen _ Hdom) as (m & Hm & Hd & Hk).
    exists m. split; [done|]. split; [done|].
    intros k Hin. by rewrite (Hk k [] (Hinit k Hin)). }
  induction a_tags as [|a_tag a_tags IH]; intros m0 Hd0.
  - exists m0. split; [done|]. split; [done|].
    intros k items Hk. simpl. by rewrite app_nil_r.
  - simpl. unfold bind at 1.
    destruct (heading_of (default "" (Bs4.get "href" a_tag))) as [h|] eqn:Hh.
    + pose proof (heading_of_key _ _ Hh) as Hin.
      assert (is_Some (m0 !! h)) as [items_h Hitems]
        by (apply elem_of_dom; by rewrite Hd0).
      unfold bind, lift, getkey, ret. rewrite Hitems.
      destruct (IH (<[h := items_h ++ [tag_text_of h a_tag]]> m0))
        as (m & Hm & Hd & Hk).
      { rewrite dom_insert_L, Hd0.
        by apply subseteq_union_1_L, singleton_subseteq_l. }
      exists m. split; [done|]. split; [done|].
      intros k items Hk0. destruct (decide (h = k)) as [->|Hne].
      * rewrite bool_decide_eq_true_2 by done.
        rewrite Hitems in Hk0. injection Hk0 as <-.
        rewrite (Hk k (items_h ++ [tag_text_of k a_tag]))
          by apply lookup_insert_eq.
        by rewrite <- app_assoc.
      * rewrite bool_decide_eq_false_2 by congruence.
        apply Hk. by rewrite lookup_insert_ne.
    + unfold ret. destruct (IH m0 Hd0) as (m & Hm & Hd & Hk).
      exists m. split; [done|]. split; [done|].
      intros k items Hk0. rewrite bool_decide_eq_false_2 by done.
      by apply Hk.
Qed.

End Tags.

(** C3.  On a detail page with a licence anchor whose text is
    [Community License: v2], the mapping has the seven keys and the licence
    entry is [Community v2]: the label is removed where it stands, not only
    in front, while removing a leading label would leave the text as it
    is. *)
Theorem C3_license_label_removed_everywhere :
  exists tags c l,
    scrape_category_tags (C := Fixture.example_site)
      ["https://huggingface.co/alice/m1"] ∅ [] = (Ok ([tags], c), l)
    /\ dom tags = category_keys
    /\ tags !! "License" = Some ["Community v2"]
    /\ tags !! "Arxiv" = Some ["arxiv:1234"]
    /\ strip_leading_label "License: " "Community License: v2"
         = "Community License: v2"
    /\ strip_leading_label "License: " "License: MIT" = "MIT"
    /\ Py.replace "License: " "" "License: MIT" = "MIT".
Proof.
  eexists _, _, _. split; [vm_compute; reflexivity|].
  repeat split; vm_compute; reflexivity.
Qed.

(** ** The theorems on the example site *)



Lemma C4_rows_zip_positionally_example :
  index
    <$> make_rows ["m1"; "m2"] ["alice"; "bob"] ["/alice/m1"; "/bob/m2"]
          ["u1"; "u2"] [""; ""] [""; ""] [""; ""] [""; ""] [""; ""] [""; ""]
          ["mit"; ""] [""; ""] ["d1"; "d2"]
  = [1; 2].
Proof.
  apply (proj2 (proj2 (C4_rows_zip_positionally
                         ["m1"; "m2"] ["alice"; "bob"] ["/alice/m1"; "/bob/m2"]
                         ["u1"; "u2"] [""; ""] [""; ""] [""; ""] [""; ""]
                         [""; ""] [""; ""] ["mit"; ""] [""; ""] ["d1"; "d2"]))
           2%nat).
  repeat constructor.
Defined.

Lemma C5_github_link_reported_once_example :
  exists members,
    scrape_github_links (C := Fixture.example_site)
      ["https://huggingface.co/alice/m1"] ∅ []
    = (Ok ([Py.join ", " members],
           {[ "https://huggingface.co/alice/m1" := Some Fixture.detail_text ]}),
       ["https://huggingface.co/alice/m1"])
    /\ occurrences "https://github.com/a/b" members = 1%nat.
Proof.
  destruct (C5_github_link_reported_once (C := Fixture.example_site)
              "https://huggingface.co/alice/m1" ∅ [] Fixture.detail_text
              "https://github.com/a/b" Fixture.source_link
              {[ "https://huggingface.co/alice/m1" := Some Fixture.detail_text ]}
              ["https://huggingface.co/alice/m1"])
    as (members & Hout & Honce & _).
  - vm_compute. reflexivity.
  - vm_compute. left.
  - vm_compute. left.
  - reflexivity.
  - reflexivity.
  - exists members. split; [exact Hout | exact Honce].
Defined.

Lemma C7_base_page_fetched_twice_example :
  exists r rest,
    run (C := Fixture.example_site) []
      = (r, [] ++ ["https://huggingface.co/models";
                   "https://huggingface.co/models"] ++ rest)
    /\ (2 <= occurrences "https://huggingface.co/models"
               (run (C := Fixture.example_site) []).2)%nat.
Proof.
  apply (C7_base_page_fetched_twice (C := Fixture.example_site) []
           Fixture.listing_text).
  reflexivity.
Defined.

Lemma C8_planner_failure_gives_no_pages_example :
  generate_model_page_urls_with_pagination (C := Fixture.offline_site)
    Fixture.base_url 50 [] = (Ok [], [] ++ [Fixture.base_url])
  /\ run (C := Fixture.bare_site) []
     = (Ok (Some []),
        ([] ++ ["https://huggingface.co/models"])
          ++ ["https://huggingface.co/models"]).
Proof.
  split.
  - apply (proj1 (C8_planner_failure_gives_no_pages (C := Fixture.offline_site))).
    apply fetch_fails. reflexivity.
  - apply (proj2 (proj2 (C8_planner_failure_gives_no_pages
                           (C := Fixture.bare_site)))
             [] Fixture.flat_text).
    + reflexivity.
    + apply (no_pagination_items (C := Fixture.bare_site) _ _ Fixture.flat_text);
        reflexivity.
Defined.


Lemma C10_repository_pass_unguarded_example :
  exists repos,
    scrape_model_repositories (C := Fixture.example_site) [Fixture.page "0"] ∅ []
    = (Ok (repos, {[ Fixture.page "0" := Some Fixture.listing_text ]}),
       [Fixture.page "0"])
    /\ length repos = 3%nat.
Proof.
  destruct (proj1 C10_repository_pass_unguarded Fixture.example_site
              [Fixture.page "0"] ∅ [] ["/alice/m1"; "/bob/m2"; "/solo"]
              {[ Fixture.page "0" := Some Fixture.listing_text ]}
              [Fixture.page "0"])
    as (repos & Hrepos & Hlen & _).
  - vm_compute. reflexivity.
  - intros href Hin.
    repeat (apply elem_of_cons in Hin as [->|Hin]; [vm_compute; lia|]).
    by apply elem_of_nil in Hin.
  - exists repos. split; [exact Hrepos | exact Hlen].
Defined.

(** ** The spec's test cases, evaluated *)

Example link_segments :
  Py.split "/" "/alice/m1" = [""; "alice"; "m1"]
  /\ name_of "/alice/m1" = "m1" /\ owner_of "/alice/m1" = "alice"
  /\ name_of "/solo" = " ".
Proof. repeat split; reflexivity. Qed.

Example license_tag :
  heading_of "/models?license=license%3Afoo" = Some "License"
  /\ tag_text_of "License"
       (Element "a" [("href", "/models?license=license%3Afoo")]
          [NavigableString (" License: MIT" +:+ newline)]) = "MIT".
Proof. split; reflexivity. Qed.

Example arxiv_or_others :
  heading_of "/models?other=arxiv%3A1234" = Some "Arxiv"
  /\ heading_of "/models?other=foo" = Some "Others"
  /\ heading_of "/models?pipeline_tag=text-generation" = Some "Task"
  /\ heading_of "/models?library=pytorch" = Some "Library"
  /\ heading_of "/models?language=en" = Some "Language"
  /\ heading_of "/models?dataset=dataset%3Ac4" = Some "Dataset"
  /\ heading_of "/alice/m1" = None.
Proof. repeat split; reflexivity. Qed.

Example pip_pattern :
  Re.findall_pip_install
    "run pip install git+https://github.com/a/b now, or pip install git+https://github.com/ "
  = ["https://github.com/a/b"].
Proof. reflexivity. Qed.

Example page_number :
  Py.int "7" = Some 7 /\ Py.int " 1_0 " = Some 10 /\ Py.int "-3" = Some (-3)
  /\ Py.int "seven" = None /\ Py.int "" = None.
Proof. repeat split; reflexivity. Qed.

Example batch_starts :
  Py.range_step 0 101 50 = Some [0; 50; 100]
  /\ Py.range_step 0 8 50 = Some [0] /\ Py.range_step 0 8 0 = None.
Proof. repeat split; reflexivity. Qed.

Example end_to_end :
  match (run (C := Fixture.example_site) []).1 with
  | Ok (Some rows) => Some (columns <$> rows)
  | _ => None
  end
  = Some
         ([["1"; "m1"; "alice"; "/alice/m1"; "https://huggingface.co/alice/m1";
            ""; ""; ""; ""; ""; "arxiv:1234"; "Community v2";
            "https://github.com/a/b";
            "pip install git+https://github.com/a/b  source Community License: v2 arxiv:1234"];
           ["2"; "m2"; "bob"; "/bob/m2"; "https://huggingface.co/bob/m2";
            ""; ""; ""; ""; ""; "arxiv:1234"; "Community v2";
            "https://github.com/a/b";
            "pip install git+https://github.com/a/b  source Community License: v2 arxiv:1234"];
           ["3"; " "; "solo"; "/solo"; "https://huggingface.co/solo";
            ""; ""; ""; ""; ""; "arxiv:1234"; "Community v2";
            "https://github.com/a/b";
            "pip install git+https://github.com/a/b  source Community License: v2 arxiv:1234"]]).
Proof. vm_compute. reflexivity. Qed.

Example base_page_unreachable :
  run (C := Fixture.offline_site) [] = (Ok None, ["https://huggingface.co/models"]).
Proof. vm_compute. reflexivity. Qed.

(** ** The cache, one lookup at a time *)

Section Memo.
Context `{C : Collaborators}.

(** X1.  A lookup never raises.  It leaves the URL in the cache with the
    value it returned (the absent marker of a failed fetch included),
    keeps every earlier entry, requests the URL once when the cache lacks
    it and nothing otherwise, and any later lookup of the URL in the cache
    it left returns the same value without a request. *)
Theorem get_or_cache_html_memo (url : string) (cache : Cache) (log : list string) :
  exists (v : option string) (c' : Cache) (l' : list string),
    get_or_cache_html url cache log = (Ok (v, c'), l')
    /\ c' !! url = Some v
    /\ cache ⊆ c'
    /\ (cache !! url = None -> l' = log ++ [url] /\ v = requests_get log url)
    /\ (is_Some (cache !! url) -> l' = log /\ c' = cache)
    /\ (forall l'', get_or_cache_html url c' l'' = (Ok (v, c'), l'')).
Proof.
  rewrite get_or_cache_html_sem.
  destruct (lookup_or_fetch url cache log) as [[v c'] l'] eqn:Hf.
  exists v, c', l'.
  pose proof (lookup_or_fetch_post _ _ _ _ _ _ Hf) as (Hv & Hsub & _).
  split; [done|]. split; [done|]. split; [done|].
  unfold lookup_or_fetch in Hf. split; [|split].
  - intros Hnone. rewrite Hnone in Hf. by simplify_eq.
  - intros [w Hw]. rewrite Hw in Hf. by simplify_eq.
  - intros l''. by apply cache_hit_requests_nothing.
Qed.

(** A loop body that does not touch the request history. *)
Lemma for_pure {A S} (l : list A) (body : A -> S -> M S) :
  (forall x s log, body x s log = ((body x s []).1, log)) ->
  forall s log, for_ l body s log = ((for_ l body s []).1, log).
Proof.
  intros Hbody. induction l as [|x l IH]; intros s log; [done|].
  simpl. unfold bind. rewrite (Hbody x s log), (Hbody x s []). simpl.
  destruct (body x s []).1 as [s'|e]; [|done].
  rewrite (IH s' log). by rewrite (IH s' []).
Qed.

Lemma categorize_log (a_tags : list Node) (log : list string) :
  categorize a_tags log = ((categorize a_tags []).1, log).
Proof.
  unfold categorize. apply for_pure. intros a_tag m l.
  destruct (heading_of (default "" (Bs4.get "href" a_tag))); [|done].
  unfold bind, lift, ret. by destruct (getkey m s).
Qed.

Lemma scrape_model_cards_sem urls cache log :
  scrape_model_cards urls cache log =
    pass_sem (fun text => Ok (option_list (card_of text))) urls [] cache log.
Proof.
  apply (for_pass_sem (fun text => Ok (option_list (card_of text)))).
  intros u a c l. unfold bind, card_of, clean_card.
  rewrite get_or_cache_html_sem.
  destruct (lookup_or_fetch u c l) as [[[text|] c'] l']; simpl; [|done].
  destruct (Bs4.soup_find _ (BeautifulSoup text)); simpl; [done|].
  by rewrite app_nil_r.
Qed.

Lemma scrape_category_tags_sem urls cache log :
  scrape_category_tags urls cache log = pass_sem tags_of urls [] cache log.
Proof.
  apply (for_pass_sem tags_of).
  intros u a c l. unfold bind, tags_of, anchors.
  rewrite get_or_cache_html_sem.
  destruct (lookup_or_fetch u c l) as [[[text|] c'] l']; simpl; [|done].
  rewrite categorize_log.
  by destruct (categorize _ []).1.
Qed.

Lemma tags_of_ok text :
  exists m, tags_of text = Ok [m]
            /\ dom m = category_keys
            /\ (forall k, k ∈ category_keys ->
                  m !! k = Some (tag_text_of k <$> in_category k (anchors text))).
Proof.
  unfold tags_of.
  destruct (categorize_spec (anchors text) []) as (m & Hm & Hd & Hk).
  rewrite Hm. simpl. by exists m.
Qed.

End Memo.

(** ** What a pass sees and requests *)

Section PassFacts.
Context `{C : Collaborators}.

Lemma visit_requests (urls : list string) (cache : Cache) log ts c' l' :
  visit urls cache log = (ts, c', l') ->
  exists new,
    l' = log ++ new /\ NoDup new
    /\ (forall u, u ∈ new <-> u ∈ urls /\ cache !! u = None).
Proof.
  revert cache log ts c' l'.
  induction urls as [|u us IH]; intros cache log ts c' l'; simpl.
  - intros [= <- <- <-]. exists []. rewrite app_nil_r.
    split; [done|]. split; [constructor|].
    intros u. split; [by inversion 1 | by intros [H%elem_of_nil _]].
  - unfold lookup_or_fetch. destruct (cache !! u) as [v|] eqn:Hu.
    + destruct (visit us cache log) as [[ts1 c1] l1] eqn:Hv.
      intros [= <- <- <-].
      destruct (IH _ _ _ _ _ Hv) as (new & -> & Hnd & Hnew).
      exists new. split; [done|]. split; [done|].
      intros u'. rewrite Hnew, elem_of_cons. split.
      * intros [? ?]. split; [by right|done].
      * intros [[->|?] ?]; [congruence | done].
    + destruct (visit us (<[u:=requests_get log u]> cache) (log ++ [u]))
        as [[ts1 c1] l1] eqn:Hv.
      intros [= <- <- <-].
      destruct (IH _ _ _ _ _ Hv) as (new & -> & Hnd & Hnew).
      exists (u :: new). split; [by rewrite <- app_assoc|]. split.
      * constructor; [|done]. rewrite Hnew. intros [_ Hnone].
        by rewrite lookup_insert_eq in Hnone.
      * intros u'. rewrite !elem_of_cons, Hnew. split.
        -- intros [->|[Hin Hnone]]; [by split; [left|]|].
           destruct (decide (u = u')) as [->|Hne];
             [by rewrite lookup_insert_eq in Hnone|].
           rewrite lookup_insert_ne in Hnone by done. split; [by right|done].
        -- intros [[->|Hin] Hnone]; [by left|].
           destruct (decide (u = u')) as [->|Hne]; [by left|].
           right. split; [done|]. by rewrite lookup_insert_ne.
Qed.

(** The outcome of a pass, read backwards: a returned pass has added
    [g text] for every text it saw, and a raised exception is one that [g]
    raised on a text it saw, before any request for a later URL. *)
Lemma pass_sem_inv {X} (g : string -> res (list X)) urls acc (cache : Cache) log :
  match pass_sem g urls acc cache log with
  | (Ok (out, c'), l') =>
      exists xss, Forall2 (fun t xs => g t = Ok xs) (visit urls cache log).1.1 xss
                  /\ out = acc ++ mjoin xss
                  /\ c' = (visit urls cache log).1.2
                  /\ l' = (visit urls cache log).2
  | (Raise e, l') =>
      (exists t, t ∈ (visit urls cache log).1.1 /\ g t = Raise e)
      /\ log `prefix_of` l' /\ l' `prefix_of` (visit urls cache log).2
  end.
Proof.
  revert acc cache log.
  induction urls as [|u us IH]; intros acc cache log; simpl.
  - exists []. by rewrite app_nil_r.
  - destruct (lookup_or_fetch u cache log) as [[rt c1] l1] eqn:Hf.
    pose proof (lookup_or_fetch_post _ _ _ _ _ _ Hf) as (_ & _ & Hpre).
    destruct (visit us c1 l1) as [[ts1 c2] l2] eqn:Hv.
    pose proof (visit_post _ _ _ _ _ _ Hv) as (_ & Hpre2 & _).
    destruct rt as [text|]; simpl.
    + destruct (g text) as [xs|e] eqn:Hg.
      * specialize (IH (acc ++ xs) c1 l1). rewrite Hv in IH. simpl in IH.
        destruct (pass_sem g us (acc ++ xs) c1 l1) as [[[out c']|e] l'].
        -- destruct IH as (xss & HF & -> & -> & ->).
           exists (xs :: xss). split; [by constructor|].
           by rewrite <- app_assoc.
        -- destruct IH as ((t & Ht & Hgt) & Hp1 & Hp2).
           split; [exists t; split; [by right|done]|].
           split; [by etrans|done].
      * split; [exists text; split; [by left|done]|]. by split.
    + specialize (IH acc c1 l1). rewrite Hv in IH. simpl in IH.
      destruct (pass_sem g us acc c1 l1) as [[[out c']|e] l']; [done|].
      destruct IH as (Ht & Hp1 & Hp2). split; [done|]. split; [by etrans|done].
Qed.

Lemma comprehension_inv {A B} (f : A -> res B) (l : list A) :
  match comprehension f l with
  | Ok ys => Forall2 (fun x y => f x = Ok y) l ys
  | Raise e => exists x, x ∈ l /\ f x = Raise e
  end.
Proof.
  induction l as [|x l IH]; simpl; [constructor|].
  destruct (f x) as [y|e] eqn:Hx.
  - destruct (comprehension f l) as [ys|e].
    + by constructor.
    + destruct IH as (x' & Hin & Hx'). exists x'. split; [by right|done].
  - exists x. split; [by left|done].
Qed.

Lemma getitem_raises {A} (l : list A) i e : getitem l i = Raise e -> e = IndexError.
Proof.
  unfold getitem.
  repeat match goal with
         | |- context [if ?b then _ else _] => destruct b
         | |- context [match ?o with Some _ => _ | None => _ end] => destruct o
         end; congruence.
Qed.

(** What the repository pass adds for one page, whichever way it ends. *)
Lemma repos_of_inv text :
  match repos_of text with
  | Ok repos => repos = owner_of <$> block_hrefs text
  | Raise e => e = IndexError /\ exists href, href ∈ block_hrefs text
                                              /\ Py.count "/" href = O
  end.
Proof.
  unfold repos_of.
  pose proof (comprehension_inv (fun href => getitem (Py.split "/" href) 1)
                (block_hrefs text)) as H.
  destruct (comprehension _ (block_hrefs text)) as [ys|e].
  - induction H as [|href y l ys Hy _ IH]; [done|].
    rewrite fmap_cons, <- IH. f_equal.
    rewrite getitem_1 in Hy. unfold owner_of.
    by destruct (Py.split "/" href !! 1%nat); simplify_eq.
  - destruct H as (href & Hin & Hr). split; [by eapply getitem_raises|].
    exists href. split; [done|].
    destruct (Py.count "/" href) as [|n] eqn:Hc; [done|].
    rewrite owner_entry_ok in Hr by lia. done.
Qed.

End PassFacts.

(** ** The rows of a run *)

Section RunFacts.
Context `{C : Collaborators}.

Lemma join_option_list {A T} (f : T -> option A) (l : list T) :
  mjoin ((fun t => option_list (f t)) <$> l) = omap f l.
Proof.
  induction l as [|t l IH]; [done|]. csimpl. rewrite IH. by destruct (f t).
Qed.

Lemma repos_of_all (ts : list string) xss :
  Forall2 (fun t xs => repos_of t = Ok xs) ts xss ->
  mjoin xss = owner_of <$> mjoin (block_hrefs <$> ts).
Proof.
  induction 1 as [|t xs ts xss Ht _ IH]; [done|].
  csimpl. rewrite fmap_app, IH. f_equal.
  pose proof (repos_of_inv t) as Hinv. by rewrite Ht in Hinv.
Qed.

Lemma tag_column_cells (k : string) (ds : list string) xss :
  k ∈ category_keys ->
  Forall2 (fun t xs => tags_of t = Ok xs) ds xss ->
  tag_column k (mjoin xss) = Ok (tag_cell k <$> ds).
Proof.
  intros Hk. induction 1 as [|t xs ds xss Ht _ IH]; [done|].
  destruct (tags_of_ok t) as (m & Hm & _ & Hcells).
  rewrite Hm in Ht. injection Ht as <-. csimpl.
  unfold tag_column in *. simpl. unfold getkey at 1.
  rewrite (Hcells k Hk), IH. done.
Qed.

End RunFacts.

Section RunSem.
Context `{C : Collaborators}.

Lemma bind_ok {A B} (m : M A) (k : A -> M B) log a l' :
  m log = (Ok a, l') -> bind m k log = k a l'.
Proof. intros H. unfold bind. by rewrite H. Qed.

Lemma bind_raise {A B} (m : M A) (k : A -> M B) log e l' :
  m log = (Raise e, l') -> bind m k log = (Raise e, l').
Proof. intros H. unfold bind. by rewrite H. Qed.

(** The whole of [run] on a reachable base page: with [ts] the markup of
    the planned listing pages and [ds] the markup of the detail pages of
    the links met there, [run] returns the rows built from them, unless a
    link has no separator, in which case it raises [IndexError] after the
    listing pages were fetched. *)
Lemma run_sem (log : list string) (text : string) :
  requests_get log "https://huggingface.co/models" = Some text ->
  exists hv,
    generate_model_page_urls_with_pagination "https://huggingface.co/models" 50
      (log ++ ["https://huggingface.co/models"])
    = (Ok hv, (log ++ ["https://huggingface.co/models"])
                ++ ["https://huggingface.co/models"])
    /\ forall ts c1 l1 ds c2 l2,
        visit hv (<["https://huggingface.co/models" := Some text]> ∅)
          ((log ++ ["https://huggingface.co/models"])
             ++ ["https://huggingface.co/models"]) = (ts, c1, l1) ->
        visit ((fun href => origin +:+ href) <$> mjoin (block_hrefs <$> ts)) c1 l1
          = (ds, c2, l2) ->
        run log = (Ok (Some (run_rows (mjoin (block_hrefs <$> ts)) ds)), l2)
        \/ (run log = (Raise IndexError, l1)
            /\ exists href, href ∈ mjoin (block_hrefs <$> ts)
                            /\ Py.count "/" href = O).
Proof.
  intros Htext. eexists. split; [apply generate_sem|].
  intros ts c1 l1 ds c2 l2 Hv1 Hv2.
  set (hv := match requests_get _ _ with Some _ => _ | None => _ end) in *.
  set (LL := mjoin (block_hrefs <$> ts)) in *.
  unfold run.
  erewrite bind_ok; cycle 1.
  { rewrite get_or_cache_html_sem. unfold lookup_or_fetch.
    rewrite lookup_empty, Htext. reflexivity. }
  cbv beta iota.
  erewrite bind_ok by apply generate_sem. fold hv.
  erewrite bind_ok; cycle 1.
  { rewrite scrape_model_names_links. unfold listing_links. rewrite Hv1.
    cbn [fst snd]. reflexivity. }
  cbv beta iota. fold LL.
  pose proof (visit_again _ _ _ _ _ _ Hv1 l1) as Hv1'.
  pose proof (pass_sem_inv repos_of hv [] c1 l1) as Hrepos.
  rewrite Hv1' in Hrepos. simpl in Hrepos.
  destruct (pass_sem repos_of hv [] c1 l1) as [[[repos c']|e] l'] eqn:Hr.
  2:{ right. destruct Hrepos as ((t & Ht & Hraise) & Hp1 & Hp2).
      assert (l' = l1) as -> by (by apply (anti_symm prefix)).
      pose proof (repos_of_inv t) as Hinv. rewrite Hraise in Hinv.
      destruct Hinv as (-> & href & Hin & Hc).
      split.
      - erewrite bind_raise; [done|].
        by rewrite scrape_model_repositories_sem.
      - exists href. split; [|done]. apply list_elem_of_join.
        exists (block_hrefs t). split; [done|]. by apply list_elem_of_fmap_2. }
  left. destruct Hrepos as (xss & HF & -> & -> & ->).
  erewrite bind_ok by (rewrite scrape_model_repositories_sem; exact Hr).
  cbv beta iota. simpl app. rewrite (repos_of_all _ _ HF). fold LL.
  erewrite bind_ok; cycle 1.
  { rewrite model_addresses_links. unfold listing_links. rewrite Hv1'.
    cbn [fst snd]. reflexivity. }
  cbv beta iota. fold LL.
  erewrite bind_ok; cycle 1.
  { rewrite fetch_huggingface_model_urls_links. unfold listing_links.
    rewrite Hv1'. cbn [fst snd]. reflexivity. }
  cbv beta iota. fold LL.
  erewrite bind_ok; cycle 1.
  { rewrite scrape_model_cards_sem.
    rewrite (pass_sem_visit _ (fun t => option_list (card_of t))) by done.
    rewrite Hv2. cbn [fst snd]. reflexivity. }
  cbv beta iota. rewrite join_option_list. simpl app.
  pose proof (visit_again _ _ _ _ _ _ Hv2 l2) as Hv2'.
  erewrite bind_ok; cycle 1.
  { rewrite scrape_github_links_visit, Hv2'. cbn [fst snd]. reflexivity. }
  cbv beta iota.
  pose proof (pass_sem_inv tags_of ((fun href => origin +:+ href) <$> LL) [] c2 l2)
    as Htags.
  rewrite Hv2' in Htags. simpl in Htags.
  destruct (pass_sem tags_of _ [] c2 l2) as [[[tags c']|e] l'] eqn:Ht.
  2:{ destruct Htags as ((t & _ & Hraise) & _).
      destruct (tags_of_ok t) as (m & Hm & _). congruence. }
  destruct Htags as (xss' & HF' & -> & -> & ->). simpl app.
  erewrite bind_ok by (rewrite scrape_category_tags_sem; exact Ht).
  cbv beta iota.
  assert (Hkeys : forall k, k ∈ category_keys ->
            tag_column k (mjoin xss') = Ok (tag_cell k <$> ds))
    by (intros; by apply tag_column_cells).
  unfold bind, lift, ret.
  rewrite !Hkeys by (unfold category_keys; set_solver).
  reflexivity.
Qed.

End RunSem.

Section RunTheorems.
Context `{C : Collaborators}.

(** X4.  [run] on a reachable base page.  With [ts] the markup of the
    planned listing pages that could be fetched and [ds] the markup of the
    detail pages, of the links met there, that could be fetched: [run]
    hands the sink the rows built from these links and pages, or, when
    some link has no separator, raises [IndexError] once the listing pages
    are fetched. *)
Theorem run_outcome (log : list string) (text : string) :
  requests_get log "https://huggingface.co/models" = Some text ->
  exists hv,
    generate_model_page_urls_with_pagination "https://huggingface.co/models" 50
      (log ++ ["https://huggingface.co/models"])
    = (Ok hv, (log ++ ["https://huggingface.co/models"])
                ++ ["https://huggingface.co/models"])
    /\ forall ts c1 l1 ds c2 l2,
        visit hv (<["https://huggingface.co/models" := Some text]> ∅)
          ((log ++ ["https://huggingface.co/models"])
             ++ ["https://huggingface.co/models"]) = (ts, c1, l1) ->
        visit ((fun href => origin +:+ href) <$> mjoin (block_hrefs <$> ts)) c1 l1
          = (ds, c2, l2) ->
        run log = (Ok (Some (run_rows (mjoin (block_hrefs <$> ts)) ds)), l2)
        \/ (run log = (Raise IndexError, l1)
            /\ exists href, href ∈ mjoin (block_hrefs <$> ts)
                            /\ Py.count "/" href = O).
Proof. apply run_sem. Qed.

Lemma run_none (log : list string) :
  requests_get log "https://huggingface.co/models" = None ->
  run log = (Ok None, log ++ ["https://huggingface.co/models"]).
Proof.
  intros Hnone. unfold run.
  erewrite bind_ok; cycle 1.
  { rewrite get_or_cache_html_sem. unfold lookup_or_fetch.
    rewrite lookup_empty, Hnone. reflexivity. }
  reflexivity.
Qed.

(** The outcome of [run], whatever the base page does. *)
Lemma run_cases (log : list string) :
  (requests_get log "https://huggingface.co/models" = None
   /\ run log = (Ok None, log ++ ["https://huggingface.co/models"]))
  \/ (exists links details l', run log = (Ok (Some (run_rows links details)), l'))
  \/ (exists l', run log = (Raise IndexError, l')).
Proof.
  destruct (requests_get log "https://huggingface.co/models") as [text|] eqn:Ht.
  - right. destruct (run_sem log text Ht) as (hv & _ & Hrun).
    destruct (visit hv (<["https://huggingface.co/models" := Some text]> ∅)
                ((log ++ ["https://huggingface.co/models"])
                   ++ ["https://huggingface.co/models"]))
      as [[ts c1] l1] eqn:Hv1.
    destruct (visit ((fun href => origin +:+ href) <$> mjoin (block_hrefs <$> ts))
                c1 l1) as [[ds c2] l2] eqn:Hv2.
    destruct (Hrun _ _ _ _ _ _ eq_refl Hv2) as [H|[H _]]; [left|right]; eauto.
  - left. split; [done|]. by apply run_none.
Qed.

(** X5.  Every row that [run] hands to the sink is about one link: its
    address is a link met on a listing page, its URL is the origin followed
    by the address, its name and repository are the name and owner entries
    of that address, and the address has a separator. *)
Theorem run_rows_consistent (log : list string) (rows : list Row)
    (l' : list string) :
  run log = (Ok (Some rows), l') ->
  forall r, r ∈ rows ->
    url r = origin +:+ address r
    /\ name r = name_of (address r)
    /\ repo r = owner_of (address r)
    /\ index r ∈ seqZ 1 (Z.of_nat (length rows)).
Proof.
  intros Hrun r Hr.
  destruct (run_cases log) as [[_ H]|[(links & details & l'' & H)|[l'' H]]];
    rewrite H in Hrun; simplify_eq.
  apply list_elem_of_lookup in Hr as [i Hi].
  pose proof (lookup_lt_Some _ _ _ Hi) as Hlt.
  unfold run_rows, make_rows in Hi.
  apply zip_rows_lookup in Hi as (H0 & H1 & H2 & H3 & H4 & _).
  rewrite list_lookup_fmap in H1, H2, H4. rewrite H3 in H1, H2, H4.
  simpl in *. simplify_eq.
  repeat split; try done.
  apply lookup_seqZ in H0 as [-> _]. apply elem_of_seqZ. lia.
Qed.

(** X6.  [IndexError] is the only exception [run] raises; the dictionaries
    of tags always have the keys that [run] reads. *)
Theorem run_raises_only_IndexError (log : list string) (e : exn)
    (l' : list string) :
  run log = (Raise e, l') -> e = IndexError.
Proof.
  intros Hrun.
  destruct (run_cases log) as [[_ H]|[(links & details & l'' & H)|[l'' H]]];
    rewrite H in Hrun; by simplify_eq.
Qed.

(** X8.  When the base page cannot be fetched, [run] makes that one
    request and returns without calling the planner or the sink. *)
Theorem run_unreachable_base (log : list string) :
  requests_get log "https://huggingface.co/models" = None ->
  run log = (Ok None, log ++ ["https://huggingface.co/models"]).
Proof. apply run_none. Qed.

Lemma visit_length (urls : list string) (cache : Cache) log :
  (length (visit urls cache log).1.1 <= length urls)%nat.
Proof.
  revert cache log. induction urls as [|u us IH]; intros cache log; [done|].
  simpl. destruct (lookup_or_fetch u cache log) as [[rt c1] l1].
  specialize (IH c1 l1). destruct (visit us c1 l1) as [[ts c2] l2].
  destruct rt; simpl in *; lia.
Qed.

Lemma length_omap_le {A B} (f : A -> option B) (l : list A) :
  (length (omap f l) <= length l)%nat.
Proof.
  induction l as [|x l IH]; [done|]. csimpl. destruct (f x); simpl; lia.
Qed.

(** X7.  On a reachable base page [run] requests the base page twice and
    then no URL twice: what it requests after the planner's fetch are
    distinct URLs, none of them the base page. *)
Theorem run_requests_once (log : list string) (text : string) :
  requests_get log "https://huggingface.co/models" = Some text ->
  exists rest,
    (run log).2
      = log ++ ["https://huggingface.co/models";
                "https://huggingface.co/models"] ++ rest
    /\ NoDup rest /\ "https://huggingface.co/models" ∉ rest.
Proof.
  intros Ht. destruct (run_sem log text Ht) as (hv & _ & Hrun).
  destruct (visit hv (<["https://huggingface.co/models" := Some text]> ∅)
              ((log ++ ["https://huggingface.co/models"])
                 ++ ["https://huggingface.co/models"]))
    as [[ts c1] l1] eqn:Hv1.
  destruct (visit ((fun href => origin +:+ href) <$> mjoin (block_hrefs <$> ts))
              c1 l1) as [[ds c2] l2] eqn:Hv2.
  destruct (visit_requests _ _ _ _ _ _ Hv1) as (new1 & -> & Hnd1 & Hnew1).
  destruct (visit_requests _ _ _ _ _ _ Hv2) as (new2 & -> & Hnd2 & Hnew2).
  pose proof (visit_post _ _ _ _ _ _ Hv1) as (Hsub & _ & Hcov & _).
  assert (Hbase1 : "https://huggingface.co/models" ∉ new1).
  { rewrite Hnew1. intros [_ Hnone]. by rewrite lookup_insert_eq in Hnone. }
  destruct (Hrun _ _ _ _ _ _ eq_refl Hv2) as [H|[H _]]; rewrite H; simpl.
  - exists (new1 ++ new2). split; [by rewrite <- !app_assoc|]. split.
    + apply NoDup_app. split; [done|]. split; [|done].
      intros u Hu1 Hu2. apply Hnew1 in Hu1 as [Hin _].
      apply Hnew2 in Hu2 as [_ Hnone].
      destruct (Hcov u Hin) as [v Hv]. congruence.
    + rewrite not_elem_of_app. split; [done|].
      rewrite Hnew2. intros [_ Hnone].
      assert (c1 !! "https://huggingface.co/models" = Some (Some text))
        by (eapply lookup_weaken; [apply lookup_insert_eq|done]).
      congruence.
  - exists new1. split; [by rewrite <- !app_assoc|]. done.
Qed.

(** The number of rows is the number of detail pages that have a main
    region, when there are no more detail pages than links. *)
Lemma run_rows_length (links details : list string) :
  (length details <= length links)%nat ->
  length (run_rows links details) = length (omap card_of details).
Proof.
  intros Hle. unfold run_rows, make_rows. rewrite zip_rows_length.
  unfold Py.range. simpl. rewrite length_seqZ, !length_fmap.
  pose proof (length_omap_le card_of details).
  replace (Z.to_nat (Z.of_nat (length links) + 1 - 1)) with (length links)
    by lia.
  rewrite !(Nat.min_r _ (length (omap card_of details))) by lia. done.
Qed.

End RunTheorems.

(** ** The planner on every input *)

Section PlannerShape.
Context `{C : Collaborators}.

Lemma take_seqZ (n : nat) (m len : Z) :
  take n (seqZ m len) = seqZ m (Z.min (Z.of_nat n) len).
Proof.
  destruct (Z.le_gt_cases len (Z.of_nat n)) as [Hle|Hgt].
  - rewrite take_ge by (rewrite length_seqZ; lia). f_equal. lia.
  - replace len with (Z.of_nat n + (len - Z.of_nat n)) at 1 by lia.
    rewrite seqZ_app by lia.
    rewrite take_app_le by (rewrite length_seqZ; lia).
    rewrite take_ge by (rewrite length_seqZ; lia). f_equal. lia.
Qed.

Lemma page_urls_negative base_url (P B : Z) starts :
  B < 0 -> page_urls base_url P B starts = [].
Proof.
  intros HB. unfold page_urls, Py.range.
  induction starts as [|b starts IH]; [done|].
  simpl. rewrite IH, app_nil_r.
  rewrite seqZ_nil by lia. done.
Qed.

Lemma max_page_of_default text li a href parsed_url query_params :
  last (pagination_items text) = Some li ->
  Bs4.find (Bs4.is_tag "a") li = Some a ->
  Bs4.get "href" a = Some href ->
  urlparse href = Ok parsed_url ->
  parse_qs (query parsed_url) = Ok query_params ->
  query_params !! "p" = None ->
  max_page_of text = Ok 0.
Proof.
  intros Hli Ha Hhref Hurl Hqs Hp. unfold max_page_of, Bs4.getattr.
  by rewrite getitem_last, Hli, Ha, Hhref, Hurl, Hqs, Hp.
Qed.

(** X2.  Whatever the base page holds and whatever the batch size is, the
    planner requests the base page once, does not raise, and returns the
    URLs of the pages [0 .. k-1] for some [k] of at most three. *)
Theorem planner_at_most_three_pages
    (base_url : string) (batch_size : Z) (log : list string) :
  exists k : Z,
    0 <= k <= 3
    /\ generate_model_page_urls_with_pagination base_url batch_size log
       = (Ok ((fun n => urljoin base_url ("?p=" +:+ Py.str n +:+ "&sort=trending"))
                <$> seqZ 0 k),
          log ++ [base_url]).
Proof.
  rewrite generate_sem.
  destruct (requests_get log base_url) as [text|]; [|by exists 0].
  destruct (max_page_of text) as [P|]; [|by exists 0].
  destruct (Py.range_step 0 (P + 1) batch_size) as [starts|] eqn:Hs;
    [|by exists 0].
  destruct (Z.lt_trichotomy batch_size 0) as [Hneg|[->|Hpos]].
  - rewrite page_urls_negative by done. by exists 0.
  - done.
  - rewrite (page_urls_full _ _ _ _ Hpos Hs). unfold page_url.
    rewrite <- fmap_take, take_seqZ.
    exists (Z.max 0 (Z.min 3 (P + 1))). split; [lia|].
    assert (seqZ 0 (Z.min (Z.of_nat 3) (P + 1))
            = seqZ 0 (Z.max 0 (Z.min 3 (P + 1)))) as ->; [|done].
    destruct (Z.le_gt_cases (P + 1) 0).
    + rewrite !seqZ_nil by lia. done.
    + f_equal. lia.
Qed.

(** X3.  When the link of the last pagination-control item has no page
    number, the planner takes the last page to be page 0 and returns the
    URL of that page alone. *)
Theorem planner_default_page
    (base_url : string) (batch_size : Z) (log : list string) (text : string)
    (li a : Node) (href : string) (parsed_url : ParseResult)
    (query_params : gmap string (list string)) :
  0 < batch_size ->
  requests_get log base_url = Some text ->
  last (pagination_items text) = Some li ->
  Bs4.find (Bs4.is_tag "a") li = Some a ->
  Bs4.get "href" a = Some href ->
  urlparse href = Ok parsed_url ->
  parse_qs (query parsed_url) = Ok query_params ->
  query_params !! "p" = None ->
  generate_model_page_urls_with_pagination base_url batch_size log
    = (Ok [urljoin base_url "?p=0&sort=trending"], log ++ [base_url]).
Proof.
  intros HB Htext Hli Ha Hhref Hurl Hqs Hp.
  rewrite generate_sem, Htext.
  rewrite (max_page_of_default _ _ _ _ _ _ Hli Ha Hhref Hurl Hqs Hp).
  destruct (Py.range_step 0 (0 + 1) batch_size) as [starts|] eqn:Hs.
  - by rewrite (page_urls_full _ _ _ _ HB Hs).
  - unfold Py.range_step in Hs. destruct (Z.eqb_spec batch_size 0); [lia|done].
Qed.

End PlannerShape.

(** ** Segments and the order of pages *)

Section MoreListing.
Context `{C : Collaborators}.

Lemma split_segments c s : Forall (fun w => Py.count c w = O) (Py.split c s).
Proof.
  induction s as [|a s IH]; simpl; [by repeat constructor|].
  destruct (Ascii.eqb a c) eqn:Ha; [by constructor|].
  destruct (Py.split c s) as [|w ws]; [repeat constructor; simpl; by rewrite Ha|].
  apply Forall_cons in IH as [Hw Hws]. constructor; [|done].
  simpl. by rewrite Ha.
Qed.

Lemma name_of_no_sep href : Py.count "/" (name_of href) = O.
Proof.
  unfold name_of. destruct (2 <=? Py.count "/" href)%nat; [|done].
  destruct (last (Py.split "/" href)) as [w|] eqn:Hl; [|done].
  simpl. pose proof (split_segments "/" href) as HF.
  rewrite Forall_forall in HF. apply HF.
  apply last_Some in Hl as [l' ->]. apply elem_of_app. right. left.
Qed.

Lemma owner_of_no_sep href : Py.count "/" (owner_of href) = O.
Proof.
  unfold owner_of.
  destruct (Py.split "/" href !! 1%nat) as [w|] eqn:Hl; [|done].
  simpl. pose proof (split_segments "/" href) as HF.
  rewrite Forall_forall in HF. apply HF. by eapply list_elem_of_lookup_2.
Qed.

(** X13.  The name pass returns one entry per link, none of them with a
    separator in it; and when the repository pass returns, so does it. *)
Theorem entries_have_no_separator
    (href_values : list string) (cache : Cache) (log : list string) :
  exists names c' l',
    scrape_model_names href_values cache log = (Ok (names, c'), l')
    /\ length names = length (listing_links href_values cache log)
    /\ Forall (fun n => Py.count "/" n = O) names
    /\ (forall repos c2 l2,
          scrape_model_repositories href_values cache log = (Ok (repos, c2), l2) ->
          length repos = length names
          /\ Forall (fun o => Py.count "/" o = O) repos).
Proof.
  eexists _, _, _. split; [apply scrape_model_names_links|].
  split; [apply length_fmap|]. split.
  - apply Forall_fmap, Forall_forall. intros href _. apply name_of_no_sep.
  - intros repos c2 l2. rewrite scrape_model_repositories_sem.
    pose proof (pass_sem_inv repos_of href_values [] cache log) as Hinv.
    intros Hr. rewrite Hr in Hinv.
    destruct Hinv as (xss & HF & -> & _). simpl.
    rewrite (repos_of_all _ _ HF). fold (listing_links href_values cache log).
    split; [by rewrite !length_fmap|].
    apply Forall_fmap, Forall_forall. intros href _. apply owner_of_no_sep.
Qed.

Lemma visit_app (us1 us2 : list string) (cache : Cache) log :
  visit (us1 ++ us2) cache log =
    let '(t1, c1, l1) := visit us1 cache log in
    let '(t2, c2, l2) := visit us2 c1 l1 in
    (t1 ++ t2, c2, l2).
Proof.
  revert cache log. induction us1 as [|u us1 IH]; intros cache log; simpl.
  - by destruct (visit us2 cache log) as [[? ?] ?].
  - destruct (lookup_or_fetch u cache log) as [[rt c0] l0].
    rewrite IH. destruct (visit us1 c0 l0) as [[t1 c1] l1].
    destruct (visit us2 c1 l1) as [[t2 c2] l2]. by destruct rt.
Qed.

(** X14.  The address pass over two lists of pages in a row is the pass
    over the first list followed by the pass over the second on the cache
    the first has left: the links come in the order of the pages. *)
Theorem model_addresses_app
    (us1 us2 : list string) (cache : Cache) (log : list string)
    (a1 a2 : list string) (c1 c2 : Cache) (l1 l2 : list string) :
  model_addresses us1 cache log = (Ok (a1, c1), l1) ->
  model_addresses us2 c1 l1 = (Ok (a2, c2), l2) ->
  model_addresses (us1 ++ us2) cache log = (Ok (a1 ++ a2, c2), l2).
Proof.
  rewrite !model_addresses_links. unfold listing_links.
  rewrite visit_app.
  destruct (visit us1 cache log) as [[t1 c1'] l1'].
  intros [= <- <- <-].
  destruct (visit us2 c1' l1') as [[t2 c2'] l2'].
  intros [= <- <- <-]. simpl.
  by rewrite fmap_app, join_app.
Qed.

End MoreListing.

(** ** The detail passes, page by page *)

Section DetailPasses.
Context `{C : Collaborators}.






(** Characters of the pieces of a string. *)
Lemma all_chars_app p s t :
  all_chars p s = true -> all_chars p t = true -> all_chars p (s +:+ t) = true.
Proof.
  induction s as [|a s IH]; simpl; [done|].
  intros [? ?]%andb_prop ?. apply andb_true_intro. split; [done|]. by apply IH.
Qed.

Lemma all_chars_lstrip p s :
  all_chars p s = true -> all_chars p (Py.lstrip s) = true.
Proof.
  induction s as [|a s IH]; simpl; [done|].
  intros [Ha Hs]%andb_prop. destruct (Py.isspace a); [by apply IH|].
  simpl. by rewrite Ha, Hs.
Qed.

Lemma all_chars_rstrip p s :
  all_chars p s = true -> all_chars p (Py.rstrip s) = true.
Proof.
  induction s as [|a s IH]; simpl; [done|].
  intros [Ha Hs]%andb_prop. specialize (IH Hs).
  destruct (Py.rstrip s) as [|b r].
  - destruct (Py.isspace a); simpl; [done | by rewrite Ha].
  - simpl in *. by rewrite Ha, IH.
Qed.

Lemma all_chars_strip p s :
  all_chars p s = true -> all_chars p (Py.strip s) = true.
Proof. intros. by apply all_chars_rstrip, all_chars_lstrip. Qed.

Lemma all_chars_join p sep l :
  all_chars p sep = true ->
  Forall (fun w => all_chars p w = true) l ->
  all_chars p (Py.join sep l) = true.
Proof.
  intros Hsep. induction 1 as [|w l Hw Hl IH]; [done|].
  simpl. destruct l as [|w' l']; [done|].
  apply all_chars_app; [done|]. by apply all_chars_app.
Qed.

Lemma splitlines_no_linebreak s :
  Forall (fun w => all_chars (fun a => negb (Py.is_linebreak a)) w = true)
    (Py.splitlines s)
  /\ forall b,
      Forall (fun w => all_chars (fun a => negb (Py.is_linebreak a)) w = true)
        (Py.splitlines (String b s)).
Proof.
  induction s as [|a s [IH1 IH2]].
  - split; [constructor|]. intros b. simpl.
    destruct (Py.is_linebreak b) eqn:Hb; repeat constructor. simpl. by rewrite Hb.
  - split; [apply IH2|]. intros b.
    change (Py.splitlines (String b (String a s)))
      with (if Py.is_linebreak b
            then EmptyString ::
                   (if Py.is_CR b && Py.is_LF a then Py.splitlines s
                    else Py.splitlines (String a s))
            else match Py.splitlines (String a s) with
                 | [] => [String b EmptyString]
                 | w :: ws => String b w :: ws
                 end).
    destruct (Py.is_linebreak b) eqn:Hb.
    + constructor; [done|]. destruct (Py.is_CR b && Py.is_LF a); [done|apply IH2].
    + specialize (IH2 a). destruct (Py.splitlines (String a s)) as [|w ws].
      * repeat constructor. simpl. by rewrite Hb.
      * apply Forall_cons in IH2 as [Hw Hws]. constructor; [|done].
        simpl. by rewrite Hb, Hw.
Qed.

Lemma clean_card_no_linebreak (main_element : Node) :
  all_chars (fun a => negb (Py.is_linebreak a)) (clean_card main_element) = true.
Proof.
  unfold clean_card. apply all_chars_join; [done|].
  apply Forall_fmap, Forall_forall. intros line Hin. simpl.
  apply all_chars_strip.
  apply list_elem_of_In, filter_In in Hin as [Hin _].
  apply list_elem_of_In in Hin.
  match type of Hin with
  | _ ∈ Py.splitlines ?s =>
      pose proof (proj1 (splitlines_no_linebreak s)) as HF
  end.
  rewrite Forall_forall in HF. by apply HF.
Qed.

(** X10.  The card pass returns the cards of the detail pages that could
    be fetched and have a main region, in order, and skips the others; a
    card holds no line break. *)
Theorem card_entries
    (model_urls : list string) (cache : Cache) (log : list string) :
  exists out c' l',
    scrape_model_cards model_urls cache log = (Ok (out, c'), l')
    /\ out = omap card_of (visit model_urls cache log).1.1
    /\ (length out <= length model_urls)%nat
    /\ Forall
         (fun card =>
            all_chars (fun a => negb (Py.is_linebreak a)) card = true)
         out.
Proof.
  eexists _, _, _. split.
  { rewrite scrape_model_cards_sem.
    rewrite (pass_sem_visit _ (fun t => option_list (card_of t))) by done.
    rewrite join_option_list. reflexivity. }
  simpl. split; [done|]. split.
  - etrans; [apply length_omap_le | apply visit_length].
  - apply Forall_forall. intros card Hin.
    apply list_elem_of_omap in Hin as (text & _ & Hcard).
    unfold card_of in Hcard.
    destruct (Bs4.soup_find _ _) as [m|]; [|done].
    injection Hcard as <-. apply clean_card_no_linebreak.
Qed.

(** X11.  The tag pass returns one mapping per detail page that could be
    fetched, in order, and never raises: the mapping has exactly the seven
    keys, and under each key the texts of the anchors whose href puts them
    in that category, in document order. *)
Theorem category_tag_entries
    (model_urls : list string) (cache : Cache) (log : list string) :
  exists tags c' l',
    scrape_category_tags model_urls cache log = (Ok (tags, c'), l')
    /\ Forall2
         (fun text category_items =>
            dom category_items = category_keys
            /\ forall k, k ∈ category_keys ->
                 category_items !! k
                 = Some (tag_text_of k <$> in_category k (anchors text)))
         (visit model_urls cache log).1.1 tags.
Proof.
  rewrite scrape_category_tags_sem.
  pose proof (pass_sem_inv tags_of model_urls [] cache log) as Hinv.
  destruct (pass_sem tags_of model_urls [] cache log) as [[[tags c']|e] l'].
  2:{ destruct Hinv as ((t & _ & Hraise) & _).
      destruct (tags_of_ok t) as (m & Hm & _). congruence. }
  destruct Hinv as (xss & HF & -> & _). exists (mjoin xss), c', l'.
  split; [done|].
  induction HF as [|t xs ts xss Ht _ IH]; [constructor|].
  destruct (tags_of_ok t) as (m & Hm & Hd & Hk).
  rewrite Hm in Ht. injection Ht as <-. csimpl. by constructor.
Qed.

Lemma is_LF_false a : ascii_of_nat 10 <> a -> Py.is_LF a = false.
Proof.
  intros Hne. unfold Py.is_LF. apply N.eqb_neq. intros Ha. apply Hne.
  rewrite <- (ascii_N_embedding a), Ha. reflexivity.
Qed.

Lemma prefix_single (c a : ascii) (s : string) :
  String.prefix (String c EmptyString) (String a s)
  = if ascii_dec c a then true else false.
Proof. cbn [String.prefix]. destruct (ascii_dec c a); [by destruct s|done]. Qed.

Lemma replace_newline_no_LF (s : string) :
  all_chars (fun a => negb (Py.is_LF a)) (Py.replace_from O newline "" s) = true.
Proof.
  induction s as [|a s IH]; [done|].
  unfold Py.replace_from; fold Py.replace_from.
  unfold newline at 1. rewrite prefix_single.
  destruct (ascii_dec (ascii_of_nat 10) a) as [_|Hne].
  - exact IH.
  - cbn [all_chars]. by rewrite (is_LF_false a Hne), IH.
Qed.

Lemma replace_from_removes p (old s : string) (k : nat) :
  all_chars p s = true -> all_chars p (Py.replace_from k old "" s) = true.
Proof.
  revert k. induction s as [|a s IH]; intros k; [done|].
  cbn [all_chars]. intros [Ha Hs]%andb_prop.
  unfold Py.replace_from; fold Py.replace_from.
  destruct k as [|k]; [|by apply IH].
  destruct (String.prefix old (String a s)).
  - change ("" +:+ ?x) with x. by apply IH.
  - cbn [all_chars]. by rewrite Ha, IH.
Qed.

(** X12.  The text recorded for a tag, in any category, holds no line
    feed. *)
Theorem tag_text_has_no_newline (heading : string) (a_tag : Node) :
  all_chars (fun a => negb (Py.is_LF a)) (tag_text_of heading a_tag) = true.
Proof.
  unfold tag_text_of.
  destruct (String.eqb heading "License").
  - apply replace_from_removes, replace_newline_no_LF.
  - apply replace_newline_no_LF.
Qed.

End DetailPasses.

Section RowCount.
Context `{C : Collaborators}.

(** X15.  The rows that [run] hands to the sink are fixed by the links met
    on the listing pages and by the detail pages that could be fetched:
    there are no more such pages than links, and there is one row for each
    of them that has a main region, so that a detail page that is missing
    or has no main region moves every later card up by one row. *)
Theorem run_row_count (log : list string) (rows : list Row) (l' : list string) :
  run log = (Ok (Some rows), l') ->
  exists links details,
    rows = run_rows links details
    /\ (length details <= length links)%nat
    /\ length rows = length (omap card_of details)
    /\ description <$> rows = omap card_of details.
Proof.
  intros Hrun.
  destruct (requests_get log "https://huggingface.co/models") as [text|] eqn:Ht.
  2:{ rewrite (run_none log Ht) in Hrun. done. }
  destruct (run_sem log text Ht) as (hv & _ & Hsem).
  destruct (visit hv (<["https://huggingface.co/models" := Some text]> ∅)
              ((log ++ ["https://huggingface.co/models"])
                 ++ ["https://huggingface.co/models"]))
    as [[ts c1] l1] eqn:Hv1.
  destruct (visit ((fun href => origin +:+ href) <$> mjoin (block_hrefs <$> ts))
              c1 l1) as [[ds c2] l2] eqn:Hv2.
  destruct (Hsem _ _ _ _ _ _ eq_refl Hv2) as [H|[H _]];
    rewrite H in Hrun; simplify_eq.
  assert (Hle : (length ds <= length (mjoin (block_hrefs <$> ts)))%nat).
  { pose proof (visit_length
                  ((fun href => origin +:+ href) <$> mjoin (block_hrefs <$> ts))
                  c1 l1) as Hl.
    rewrite Hv2, length_fmap in Hl. done. }
  exists (mjoin (block_hrefs <$> ts)), ds.
  split; [done|]. split; [done|].
  pose proof (run_rows_length _ _ Hle) as Hlen. split; [done|].
  apply list_eq. intros i. rewrite list_lookup_fmap.
  destruct (run_rows (mjoin (block_hrefs <$> ts)) ds !! i) as [r|] eqn:Hr; simpl.
  - unfold run_rows, make_rows in Hr.
    apply zip_rows_lookup in Hr. symmetry. apply Hr.
  - symmetry. apply lookup_ge_None. apply lookup_ge_None in Hr. lia.
Qed.

End RowCount.

(** ** The further theorems on the example sites *)

Lemma planner_default_page_example :
  generate_model_page_urls_with_pagination (C := Fixture.plain_site)
    Fixture.base_url 50 []
  = (Ok [Fixture.page "0"], [] ++ [Fixture.base_url]).
Proof.
  apply (planner_default_page (C := Fixture.plain_site) Fixture.base_url 50 []
           Fixture.plain_text Fixture.plain_item Fixture.plain_link
           "/models?sort=trending"
           {| scheme := ""; netloc := ""; path := "/models"; params := "";
              query := "sort=trending"; fragment := "" |}
           (Fixture.pairs_of "sort=trending"));
    [lia | vm_compute; reflexivity ..].
Defined.

Lemma run_outcome_example :
  exists hv,
    generate_model_page_urls_with_pagination (C := Fixture.example_site)
      "https://huggingface.co/models" 50 ([] ++ ["https://huggingface.co/models"])
    = (Ok hv, ([] ++ ["https://huggingface.co/models"])
                ++ ["https://huggingface.co/models"]).
Proof.
  destruct (run_outcome (C := Fixture.example_site) [] Fixture.listing_text
              eq_refl) as (hv & Hgen & _).
  by exists hv.
Defined.

Lemma run_rows_consistent_example :
  exists rows l',
    run (C := Fixture.example_site) [] = (Ok (Some rows), l')
    /\ forall r, r ∈ rows -> url r = origin +:+ address r.
Proof.
  destruct (run (C := Fixture.example_site) []) as [[[rows|]|e] l'] eqn:Hrun;
    [|vm_compute in Hrun; discriminate ..].
  exists rows, l'. split; [reflexivity|].
  intros r Hr.
  exact (proj1 (run_rows_consistent (C := Fixture.example_site) [] rows l'
                  Hrun r Hr)).
Defined.

Lemma run_raises_only_IndexError_example :
  exists e l', run (C := Fixture.flat_site) [] = (Raise e, l') /\ e = IndexError.
Proof.
  destruct (run (C := Fixture.flat_site) []) as [[rows|e] l'] eqn:Hrun;
    [vm_compute in Hrun; discriminate|].
  exists e, l'. split; [reflexivity|].
  exact (run_raises_only_IndexError (C := Fixture.flat_site) [] e l' Hrun).
Defined.

Lemma run_requests_once_example :
  exists rest,
    (run (C := Fixture.example_site) []).2
    = [] ++ ["https://huggingface.co/models"; "https://huggingface.co/models"]
         ++ rest
    /\ NoDup rest.
Proof.
  destruct (run_requests_once (C := Fixture.example_site) [] Fixture.listing_text
              eq_refl) as (rest & Hlog & Hnd & _).
  exists rest. split; [exact Hlog | exact Hnd].
Defined.

Lemma run_unreachable_base_example :
  run (C := Fixture.offline_site) []
  = (Ok None, [] ++ ["https://huggingface.co/models"]).
Proof.
  apply (run_unreachable_base (C := Fixture.offline_site) []). reflexivity.
Defined.

Lemma model_addresses_app_example :
  exists a1 a2 c l,
    model_addresses (C := Fixture.example_site)
      ([Fixture.page "0"] ++ [Fixture.page "1"]) ∅ [] = (Ok (a1 ++ a2, c), l).
Proof.
  pose proof (model_addresses_links (C := Fixture.example_site)
                [Fixture.page "0"] ∅ []) as H1.
  pose proof (model_addresses_links (C := Fixture.example_site)
                [Fixture.page "1"]
                (visit (C := Fixture.example_site) [Fixture.page "0"] ∅ []).1.2
                (visit (C := Fixture.example_site) [Fixture.page "0"] ∅ []).2)
    as H2.
  eexists _, _, _, _.
  exact (model_addresses_app (C := Fixture.example_site) _ _ _ _ _ _ _ _ _ _
           H1 H2).
Defined.

Lemma run_row_count_example :
  exists rows l' links details,
    run (C := Fixture.example_site) [] = (Ok (Some rows), l')
    /\ rows = run_rows (C := Fixture.example_site) links details
    /\ length rows = length (omap (card_of (C := Fixture.example_site)) details).
Proof.
  destruct (run (C := Fixture.example_site) []) as [[[rows|]|e] l'] eqn:Hrun;
    [|vm_compute in Hrun; discriminate ..].
  destruct (run_row_count (C := Fixture.example_site) [] rows l' Hrun)
    as (links & details & Hrows & _ & Hlen & _).
  exists rows, l', links, details.
  split; [reflexivity|]. split; [exact Hrows | exact Hlen].
Defined.
